(** * Authentication backend: repository, session dependency, identity
      middleware and auth router

    A shallow embedding of

    - [infrastructure/repositories/user_repository_impl.py] (UserRepositoryImpl),
    - [infrastructure/database/base.py] (get_session),
    - [presentation/middleware/auth.py] (the identity resolvers),
    - [presentation/api/auth_router.py] (sign_up, login, /me),

    together with the properties the specification states about them.

    Python coroutines are embedded as computations in a state-and-exception
    monad over the SQLAlchemy session: a call either returns a value or
    raises, and in both cases leaves a session state behind (a raise does not
    undo what the call already did to the session). *)

From Stdlib Require Import String List ZArith Bool Lia.
Import ListNotations.
Open Scope string_scope.

(* ------------------------------------------------------------------ *)
(** ** Python values used by the code *)

(** [needle in hay] on [str]. *)
Fixpoint str_in (needle hay : string) : bool :=
  if String.prefix needle hay then true
  else match hay with
       | EmptyString => false
       | String _ rest => str_in needle rest
       end.

(** Exceptions.  Every constructor stands for a subclass of Python's
    [Exception], which is what [except Exception] catches; the string a
    constructor carries is [str(e)].  Signals outside [Exception]
    (task cancellation, interpreter exit) are not part of the model. *)
Inductive exn : Type :=
| ValueError (msg : string)
| KeyError (key : string)
| IntegrityError (msg : string)         (* sqlalchemy.exc.IntegrityError *)
| OperationalError (msg : string)       (* sqlalchemy.exc.OperationalError *)
| InvalidRequestError (msg : string)    (* sqlalchemy.exc.InvalidRequestError *)
| NoResultFound                         (* sqlalchemy.exc.NoResultFound *)
| MultipleResultsFound                  (* sqlalchemy.exc.MultipleResultsFound *)
| HTTPException (status_code : nat) (detail : string)
                (headers : list (string * string))
| RuntimeError (msg : string).

(** Outcome of a call: a returned value or a raised exception. *)
Inductive result (A : Type) : Type :=
| Ret (a : A)
| Raise (e : exn).
Arguments Ret {A} a.
Arguments Raise {A} e.

(** HTTP status codes named in [fastapi.status]. *)
Definition HTTP_400_BAD_REQUEST : nat := 400.
Definition HTTP_401_UNAUTHORIZED : nat := 401.
Definition HTTP_500_INTERNAL_SERVER_ERROR : nat := 500.

(** The response schema [UserResponseDTO] ([application.dto.user_dto]), with
    the fields the /me handler passes to its constructor. *)
Record UserResponseDTO : Type := mkUserResponseDTO {
  dto_id : string;
  dto_email : string;
  dto_username : string;
  dto_is_active : bool;
  dto_created_at : Z;
  dto_updated_at : Z
}.

(** Values stored in the result dicts of the use cases and of the router. *)
Inductive pyval : Type :=
| PStr (s : string)
| PUser (u : UserResponseDTO)
| PTokens (access_token refresh_token : string).

Definition pydict : Type := list (string * pyval).

(** [d[key]], raising [KeyError] when the key is absent. *)
Fixpoint getitem (d : pydict) (key : string) : result pyval :=
  match d with
  | [] => Raise (KeyError key)
  | (k, v) :: d' => if String.eqb k key then Ret v else getitem d' key
  end.

(* ------------------------------------------------------------------ *)
(** ** Collaborators that are outside the embedded files *)

(** The value objects [UserId] and [Email] ([domain.value_objects]): a
    constructor from the stored string and [str()]. *)
Class ValueObjects : Type := {
  UserId : Type;
  Email : Type;
  UserId_new : string -> UserId;     (* UserId(s)    *)
  UserId_str : UserId -> string;     (* str(user_id) *)
  Email_new : string -> Email;       (* Email(s)     *)
  Email_str : Email -> string        (* str(email)   *)
}.

(** A value object is rebuilt from its own string form. *)
Class ValueObjectsLaws (VO : ValueObjects) : Prop := {
  UserId_new_str : forall i : UserId, UserId_new (UserId_str i) = i;
  Email_new_str : forall e : Email, Email_new (Email_str e) = e
}.

(** Modelled from the spec: the value object [UserId] of section 3, "unique
    id (opaque string/UUID-like)": the id string, wrapped.
    [domain/value_objects/user_id.py] is not among the embedded files. *)
Record SpecUserId : Type := mkSpecUserId { user_id_value : string }.

(** Modelled from the spec: the value object [Email] of section 3, "email
    (validated format, unique)": the address that passed validation,
    wrapped.  [domain/value_objects/email.py] is not among the embedded
    files; the constructor's rejection of a malformed string is not
    modelled. *)
Record SpecEmail : Type := mkSpecEmail { email_value : string }.

(** Modelled from the spec: the two value objects with their constructor
    and [str()]. *)
Definition spec_value_objects : ValueObjects := {|
  UserId := SpecUserId;
  Email := SpecEmail;
  UserId_new := mkSpecUserId;
  UserId_str := user_id_value;
  Email_new := mkSpecEmail;
  Email_str := email_value
|}.

(** Columns of the users table that carry a uniqueness constraint. *)
Inductive column : Type := col_id | col_email | col_username.

(** The row type [UserModel] ([infrastructure.database.models]), with the
    columns the repository reads and writes. *)
Record UserModel : Type := mkUserModel {
  m_id : string;
  m_email : string;
  m_username : string;
  m_hashed_password : string;
  m_is_active : bool;
  m_created_at : Z;
  m_updated_at : Z
}.

(** The entity [User] ([domain.entities.user]), with the attributes the
    embedded files read and pass to its constructor. *)
Record User {VO : ValueObjects} : Type := mkUser {
  id : UserId;
  email : Email;
  username : string;
  hashed_password : string;
  is_active : bool;
  created_at : Z;
  updated_at : Z
}.
Arguments User : clear implicits.
Arguments mkUser {VO} id email username hashed_password is_active
  created_at updated_at.

(** The database driver: the text [str(e)] of the [IntegrityError] raised
    when writing row [m] violates the uniqueness constraint on column [c]. *)
Class SqlDriver : Type := {
  integrity_text : column -> UserModel -> string
}.

(** [jwt_service] ([infrastructure.auth.jwt_service]). *)
Class JwtService (VO : ValueObjects) : Type := {
  get_user_id_from_token : string -> result (option UserId);
  create_access_token : UserId -> string;
  create_refresh_token : UserId -> string
}.

(** [password_service] ([infrastructure.auth.password_service]). *)
Class PasswordService : Type := {
  hash_password : string -> string;
  verify_password : string -> string -> bool
}.

(* ------------------------------------------------------------------ *)
(** ** The session and its monad *)

(** State of an [AsyncSession] and of the database behind it. *)
Record Session : Type := mkSession {
  table : list UserModel;      (* users table as the open transaction sees it *)
  durable : list UserModel;    (* users table as of the last commit *)
  pending : list UserModel;    (* objects added and not flushed yet *)
  broken : option string;      (* a lost connection: statements raise *)
  closed : bool
}.

Definition set_table (t : list UserModel) (s : Session) : Session :=
  mkSession t (durable s) (pending s) (broken s) (closed s).
Definition set_durable (t : list UserModel) (s : Session) : Session :=
  mkSession (table s) t (pending s) (broken s) (closed s).
Definition set_pending (p : list UserModel) (s : Session) : Session :=
  mkSession (table s) (durable s) p (broken s) (closed s).
Definition set_closed (b : bool) (s : Session) : Session :=
  mkSession (table s) (durable s) (pending s) (broken s) b.

(** A coroutine running against the session. *)
Definition M (A : Type) : Type := Session -> result A * Session.

Definition ret {A : Type} (a : A) : M A := fun s => (Ret a, s).
Definition raise {A : Type} (e : exn) : M A := fun s => (Raise e, s).
Definition bind {A B : Type} (c : M A) (k : A -> M B) : M B :=
  fun s => match c s with
           | (Ret a, s') => k a s'
           | (Raise e, s') => (Raise e, s')
           end.
(** Lifting a call that does not touch the session. *)
Definition lift {A : Type} (r : result A) : M A := fun s => (r, s).

(** [try: c  except Exception as e: h e]; a handler for a narrower class
    re-raises what it does not match. *)
Definition try_except {A : Type} (c : M A) (h : exn -> M A) : M A :=
  fun s => match c s with
           | (Ret a, s') => (Ret a, s')
           | (Raise e, s') => h e s'
           end.

(** [try: c  finally: f]. *)
Definition try_finally {A : Type} (c : M A) (f : Session -> Session) : M A :=
  fun s => let (r, s') := c s in (r, f s').

Declare Scope py_scope.
Delimit Scope py_scope with py.
Notation "x <- c ;; k" := (bind c (fun x => k))
  (at level 61, c at next level, right associativity) : py_scope.
Notation "c ;; k" := (bind c (fun _ => k))
  (at level 61, right associativity) : py_scope.
Open Scope py_scope.

(* ------------------------------------------------------------------ *)
(** ** SQLAlchemy primitives *)

(** [Result.scalar_one_or_none()]. *)
Definition scalar_one_or_none {A : Type} (rows : list A) : result (option A) :=
  match rows with
  | [] => Ret None
  | [r] => Ret (Some r)
  | _ :: _ :: _ => Raise MultipleResultsFound
  end.

(** [Result.scalar_one()]. *)
Definition scalar_one {A : Type} (rows : list A) : result A :=
  match rows with
  | [] => Raise NoResultFound
  | [r] => Ret r
  | _ :: _ :: _ => Raise MultipleResultsFound
  end.

(** A statement sent over the connection: it raises when the connection is
    lost and otherwise runs [f] on the transaction's view of the table. *)
Definition statement {A : Type}
    (f : list UserModel -> result A * list UserModel) : M A :=
  fun s => match broken s with
           | Some msg => (Raise (OperationalError msg), s)
           | None => let (r, t') := f (table s) in (r, set_table t' s)
           end.

(** [session.execute(select(...).where(p))]: the matching rows, in table
    order. *)
Definition execute_select (p : UserModel -> bool) : M (list UserModel) :=
  statement (fun t => (Ret (filter p t), t)).

(** Modelled from the spec: the uniqueness constraints of the users table
    (section 3, "email and username are ... globally unique at the store
    level", "unique id"; section 6, create "fails with
    ConstraintViolation{field} on duplicate").  The table declaration
    [infrastructure/database/models.py] is not among the embedded files.
    The constraint an INSERT of [m] into [t] violates, if any: the primary
    key [id], then the unique columns [email] and [username]. *)
Definition violated (t : list UserModel) (m : UserModel) : option column :=
  if existsb (fun r => String.eqb (m_id r) (m_id m)) t then Some col_id
  else if existsb (fun r => String.eqb (m_email r) (m_email m)) t
       then Some col_email
  else if existsb (fun r => String.eqb (m_username r) (m_username m)) t
       then Some col_username
  else None.

Section Repository.

Context {VO : ValueObjects} {DRV : SqlDriver}.

(** INSERT of the pending objects, in the order they were added; the first
    violated constraint aborts the write. *)
Fixpoint insert_all (ms t : list UserModel) : result (list UserModel) :=
  match ms with
  | [] => Ret t
  | m :: ms' =>
      match violated t m with
      | Some c => Raise (IntegrityError (integrity_text c m))
      | None => insert_all ms' (t ++ [m])
      end
  end.

(** [session.add(model)]. *)
Definition session_add (m : UserModel) : M unit :=
  fun s => (Ret tt, set_pending (pending s ++ [m]) s).

(** [session.flush()]: writes the pending objects.  A failed write leaves
    the table as it was; the objects leave the pending list either way,
    except when the statement never reached the database.  Not modelled:
    after a failed flush SQLAlchemy has rolled the enclosing transaction
    back and refuses further statements until [rollback()]; the properties
    below use the state a failed flush leaves only through the durable
    table and through the rollback of [get_session]. *)
Definition session_flush : M unit :=
  fun s => match broken s with
           | Some msg => (Raise (OperationalError msg), s)
           | None =>
               match insert_all (pending s) (table s) with
               | Ret t' => (Ret tt, set_pending [] (set_table t' s))
               | Raise e => (Raise e, set_pending [] s)
               end
           end.

(** [session.refresh(model)]: reloads the row with the model's primary key. *)
Definition session_refresh (m : UserModel) : M UserModel :=
  rows <- execute_select (fun r => String.eqb (m_id r) (m_id m)) ;;
  match rows with
  | r :: _ => ret r
  | [] => raise (InvalidRequestError "Could not refresh instance")
  end.

(** [session.commit()]: flushes, then makes the transaction's table
    durable.  On a lost connection it raises like every statement; a commit
    on a session that never opened a transaction, which returns without
    reaching the database, is not told apart. *)
Definition session_commit : M unit :=
  session_flush ;;
  fun s => (Ret tt, set_durable (table s) s).

(** [session.rollback()]: drops what the transaction wrote and added. *)
Definition session_rollback (s : Session) : Session :=
  set_pending [] (set_table (durable s) s).

(** [session.close()]: releases the connection; anything uncommitted is
    dropped. *)
Definition session_close (s : Session) : Session :=
  set_closed true (session_rollback s).

(** [session.execute(update(UserModel).where(UserModel.id == key)
    .values(...).returning(UserModel))]: rewrites the five listed columns of
    every row whose id is [key] and returns the rewritten rows.  The
    statement is refused, and changes nothing, when a row it does not touch
    already holds the new email or the new username. *)
Definition apply_values (key : string) (v : UserModel) (r : UserModel)
  : UserModel :=
  if String.eqb (m_id r) key
  then mkUserModel (m_id r) (m_email v) (m_username v) (m_hashed_password v)
                   (m_is_active v) (m_created_at r) (m_updated_at v)
  else r.

(** Modelled from the spec: the same uniqueness constraints, for an UPDATE
    of the rows with id [key] to the values of [v]. *)
Definition update_collision (key : string) (v : UserModel)
    (t : list UserModel) : option column :=
  if negb (existsb (fun r => String.eqb (m_id r) key) t) then None
  else if existsb (fun r => negb (String.eqb (m_id r) key)
                            && String.eqb (m_email r) (m_email v)) t
       then Some col_email
  else if existsb (fun r => negb (String.eqb (m_id r) key)
                            && String.eqb (m_username r) (m_username v)) t
       then Some col_username
  else None.

Definition execute_update (key : string) (v : UserModel)
  : M (list UserModel) :=
  statement (fun t =>
    match update_collision key v t with
    | Some c => (Raise (IntegrityError (integrity_text c v)), t)
    | None =>
        let t' := map (apply_values key v) t in
        (Ret (filter (fun r => String.eqb (m_id r) key) t'), t')
    end).

(* ------------------------------------------------------------------ *)
(** ** UserRepositoryImpl *)

Definition _model_to_entity (model : UserModel) : User VO :=
  mkUser (UserId_new (m_id model))
         (Email_new (m_email model))
         (m_username model)
         (m_hashed_password model)
         (m_is_active model)
         (m_created_at model)
         (m_updated_at model).

Definition _entity_to_model (entity : User VO) : UserModel :=
  mkUserModel (UserId_str (id entity))
              (Email_str (email entity))
              (username entity)
              (hashed_password entity)
              (is_active entity)
              (created_at entity)
              (updated_at entity).

Definition create (user : User VO) : M (User VO) :=
  let model := _entity_to_model user in
  session_add model ;;
  try_except
    (session_flush ;;
     model' <- session_refresh model ;;
     ret (_model_to_entity model'))
    (fun e =>
       match e with
       | IntegrityError msg =>
           if str_in "email" msg then
             raise (ValueError ("User with email " ++ Email_str (email user)
                                ++ " already exists"))
           else if str_in "username" msg then
             raise (ValueError ("User with username " ++ username user
                                ++ " already exists"))
           else raise e
       | _ => raise e
       end).

(** [self._model_to_entity(model) if model else None]. *)
Definition entity_or_none (model : option UserModel) : option (User VO) :=
  match model with
  | Some m => Some (_model_to_entity m)
  | None => None
  end.

Definition get_by_id (user_id : UserId) : M (option (User VO)) :=
  rows <- execute_select (fun r => String.eqb (m_id r) (UserId_str user_id)) ;;
  model <- lift (scalar_one_or_none rows) ;;
  ret (entity_or_none model).

Definition get_by_email (e : Email) : M (option (User VO)) :=
  rows <- execute_select (fun r => String.eqb (m_email r) (Email_str e)) ;;
  model <- lift (scalar_one_or_none rows) ;;
  ret (entity_or_none model).

Definition get_by_username (name : string) : M (option (User VO)) :=
  rows <- execute_select (fun r => String.eqb (m_username r) name) ;;
  model <- lift (scalar_one_or_none rows) ;;
  ret (entity_or_none model).

Definition update (user : User VO) : M (User VO) :=
  rows <- execute_update (UserId_str (id user)) (_entity_to_model user) ;;
  model <- lift (scalar_one rows) ;;
  ret (_model_to_entity model).

(** [select(UserModel.id)] returns the id column of the matching rows;
    [... is not None] holds for every id the column can hold. *)
Definition is_not_None {A : Type} (o : option A) : bool :=
  match o with Some _ => true | None => false end.

Definition exists_by_email (e : Email) : M bool :=
  rows <- execute_select (fun r => String.eqb (m_email r) (Email_str e)) ;;
  i <- lift (scalar_one_or_none (map m_id rows)) ;;
  ret (is_not_None i).

Definition exists_by_username (name : string) : M bool :=
  rows <- execute_select (fun r => String.eqb (m_username r) name) ;;
  i <- lift (scalar_one_or_none (map m_id rows)) ;;
  ret (is_not_None i).

(** [session.execute(delete(UserModel).where(UserModel.id == key))]: removes
    every row whose id is [key]; the [rowcount] of the result is the number
    of rows removed. *)
Definition execute_delete (key : string) : M nat :=
  statement (fun t =>
    (Ret (length (filter (fun r => String.eqb (m_id r) key) t)),
     filter (fun r => negb (String.eqb (m_id r) key)) t)).

Definition delete (user_id : UserId) : M bool :=
  rowcount <- execute_delete (UserId_str user_id) ;;
  ret (Nat.ltb 0 rowcount).

End Repository.

(* ------------------------------------------------------------------ *)
(** ** infrastructure/database/base.py *)

(** [get_session], the per-request session dependency.  [body] is what runs
    at the [yield]: the rest of the request, started on the session that
    [async_session_maker()] opened. *)
Definition get_session {DRV : SqlDriver} {A : Type} (body : M A) : M A :=
  try_finally
    (try_except
       (a <- body ;;
        session_commit ;;
        ret a)
       (fun e => fun s => (Raise e, session_rollback s)))
    session_close.

(* ------------------------------------------------------------------ *)
(** ** presentation/middleware/auth.py *)

(** [HTTPAuthorizationCredentials]. *)
Record HTTPAuthorizationCredentials : Type := mkCredentials {
  scheme : string;
  credentials : string
}.

Section Middleware.

Context {VO : ValueObjects} {JWT : JwtService VO}.

Definition get_current_user_optional
    (creds : option HTTPAuthorizationCredentials) : M (option (User VO)) :=
  match creds with
  | None => ret None
  | Some c =>
      try_except
        (user_id <- lift (get_user_id_from_token (credentials c)) ;;
         match user_id with
         | None => ret None
         | Some uid =>
             user <- get_by_id uid ;;
             match user with
             | None => ret None
             | Some u => if negb (is_active u) then ret None else ret (Some u)
             end
         end)
        (fun _ => ret None)
  end.

Definition get_current_user
    (creds : option HTTPAuthorizationCredentials) : M (User VO) :=
  match creds with
  | None =>
      raise (HTTPException HTTP_401_UNAUTHORIZED "Not authenticated"
                           [("WWW-Authenticate", "Bearer")])
  | Some c =>
      user_id <- lift (get_user_id_from_token (credentials c)) ;;
      match user_id with
      | None =>
          raise (HTTPException HTTP_401_UNAUTHORIZED
                               "Invalid authentication credentials"
                               [("WWW-Authenticate", "Bearer")])
      | Some uid =>
          user <- get_by_id uid ;;
          match user with
          | None =>
              raise (HTTPException HTTP_401_UNAUTHORIZED
                                   "User not found or inactive"
                                   [("WWW-Authenticate", "Bearer")])
          | Some u =>
              if negb (is_active u) then
                raise (HTTPException HTTP_401_UNAUTHORIZED
                                     "User not found or inactive"
                                     [("WWW-Authenticate", "Bearer")])
              else ret u
          end
      end
  end.

Definition get_current_active_user (current_user : User VO)
  : result (User VO) :=
  if negb (is_active current_user) then
    Raise (HTTPException HTTP_400_BAD_REQUEST "Inactive user" [])
  else Ret current_user.

(** [Depends(get_current_active_user)]: the framework resolves the inner
    dependency [get_current_user] and passes its value on. *)
Definition depends_get_current_active_user
    (creds : option HTTPAuthorizationCredentials) : M (User VO) :=
  current_user <- get_current_user creds ;;
  lift (get_current_active_user current_user).

End Middleware.

(* ------------------------------------------------------------------ *)
(** ** presentation/api/auth_router.py *)

(** Request schemas ([application.dto.user_dto]). *)
Record UserCreateDTO : Type := mkUserCreateDTO {
  c_email : string;
  c_username : string;
  c_password : string
}.

Record UserLoginDTO : Type := mkUserLoginDTO {
  l_identifier : string;
  l_password : string
}.

(** The interface of [AuthUseCases] as the router calls it. *)
Record AuthUseCases : Type := mkAuthUseCases {
  register_user : UserCreateDTO -> M pydict;
  login_user : UserLoginDTO -> M pydict
}.

Definition sign_up (user_data : UserCreateDTO) (auth_use_cases : AuthUseCases)
  : M pydict :=
  try_except
    (result <- register_user auth_use_cases user_data ;;
     user <- lift (getitem result "user") ;;
     tokens <- lift (getitem result "tokens") ;;
     ret [("message", PStr "User registered successfully");
          ("user", user);
          ("tokens", tokens)])
    (fun e =>
       match e with
       | ValueError msg => raise (HTTPException HTTP_400_BAD_REQUEST msg [])
       | _ => raise (HTTPException HTTP_500_INTERNAL_SERVER_ERROR
                       "Internal server error during registration" [])
       end).

Definition login (login_data : UserLoginDTO) (auth_use_cases : AuthUseCases)
  : M pydict :=
  try_except
    (result <- login_user auth_use_cases login_data ;;
     user <- lift (getitem result "user") ;;
     tokens <- lift (getitem result "tokens") ;;
     ret [("message", PStr "Login successful");
          ("user", user);
          ("tokens", tokens)])
    (fun e =>
       match e with
       | ValueError msg => raise (HTTPException HTTP_401_UNAUTHORIZED msg [])
       | _ => raise (HTTPException HTTP_500_INTERNAL_SERVER_ERROR
                       "Internal server error during login" [])
       end).

(** Request schema of the refresh endpoint ([application.dto.user_dto]). *)
Record TokenRefreshDTO : Type := mkTokenRefreshDTO {
  r_refresh_token : string
}.

(** The method of [AuthUseCases] the refresh endpoint calls. *)
Record TokenUseCases : Type := mkTokenUseCases {
  uc_refresh_token : string -> M pyval
}.

Definition refresh_token (token_data : TokenRefreshDTO)
    (auth_use_cases : TokenUseCases) : M pyval :=
  try_except
    (tokens <- uc_refresh_token auth_use_cases (r_refresh_token token_data) ;;
     ret tokens)
    (fun e =>
       match e with
       | ValueError msg => raise (HTTPException HTTP_401_UNAUTHORIZED msg [])
       | _ => raise (HTTPException HTTP_500_INTERNAL_SERVER_ERROR
                       "Internal server error during token refresh" [])
       end).

Definition logout : M pydict :=
  ret [("message", PStr "Logout successful. Please discard your tokens.")].

Definition get_current_user_info {VO : ValueObjects} (current_user : User VO)
  : UserResponseDTO :=
  mkUserResponseDTO (UserId_str (id current_user))
                    (Email_str (email current_user))
                    (username current_user)
                    (is_active current_user)
                    (created_at current_user)
                    (updated_at current_user).

(** The /me endpoint: [Depends(get_current_active_user)] resolved, then the
    handler. *)
Definition me_endpoint {VO : ValueObjects} {JWT : JwtService VO}
    (creds : option HTTPAuthorizationCredentials) : M UserResponseDTO :=
  current_user <- depends_get_current_active_user creds ;;
  ret (get_current_user_info current_user).

(* ------------------------------------------------------------------ *)
(** ** AuthUseCases, from the specification *)

(** Modelled from the spec: what registration takes from its environment,
    the id given to the new user and the creation time. *)
Class Fresh (VO : ValueObjects) : Type := {
  new_user_id : UserId;
  utcnow : Z
}.

Section UseCases.

Context {VO : ValueObjects} {DRV : SqlDriver} {JWT : JwtService VO}
        {PWD : PasswordService} {FR : Fresh VO}.

(** Modelled from the spec: the error [DuplicateUser{field}] of section 7.
    [application/use_cases/auth_use_cases.py] is not among the embedded
    files; the router maps [ValueError] to the client-error responses, so
    the domain errors are values of that class. *)
Definition DuplicateUser (field value : string) : exn :=
  ValueError ("User with " ++ field ++ " " ++ value ++ " already exists").

(** Modelled from the spec: the generic error [InvalidCredentials] of
    section 7, one value for every failed login. *)
Definition InvalidCredentials : exn := ValueError "Invalid credentials".

(** Modelled from the spec: the user view and token pair that registration
    and login return (section 4.3, "UserIdentity view without hash,
    TokenPair"). *)
Definition auth_result (u : User VO) : pydict :=
  [("user", PUser (get_current_user_info u));
   ("tokens", PTokens (create_access_token (id u))
                      (create_refresh_token (id u)))].

(** Modelled from the spec: [AuthUseCases.register_user], steps 1 to 5 of
    section 4.3 (uniqueness pre-check on email and username, hash, persist
    as an active user, issue the token pair). *)
Definition register_user_spec (d : UserCreateDTO) : M pydict :=
  email_taken <- exists_by_email (Email_new (c_email d)) ;;
  if (email_taken : bool) then raise (DuplicateUser "email" (c_email d)) else
  name_taken <- exists_by_username (c_username d) ;;
  if (name_taken : bool) then raise (DuplicateUser "username" (c_username d))
  else
    created <- create (mkUser new_user_id (Email_new (c_email d))
                              (c_username d) (hash_password (c_password d))
                              true utcnow utcnow) ;;
    ret (auth_result created).

(** Modelled from the spec: step 1 of [login_user], lookup by email or
    username. *)
Definition find_by_identifier (identifier : string) : M (option (User VO)) :=
  by_email <- get_by_email (Email_new identifier) ;;
  match by_email with
  | Some u => ret (Some u)
  | None => get_by_username identifier
  end.

(** Modelled from the spec: [AuthUseCases.login_user], steps 1 to 3 of
    section 4.3; not found, inactive and a failed password check raise the
    same [InvalidCredentials]. *)
Definition login_user_spec (d : UserLoginDTO) : M pydict :=
  user <- find_by_identifier (l_identifier d) ;;
  match user with
  | None => raise InvalidCredentials
  | Some u =>
      if negb (is_active u) then raise InvalidCredentials
      else if negb (verify_password (l_password d) (hashed_password u))
      then raise InvalidCredentials
      else ret (auth_result u)
  end.

(** Modelled from the spec: the [AuthUseCases] object the router is given,
    with the two use cases above. *)
Definition auth_use_cases_spec : AuthUseCases :=
  mkAuthUseCases register_user_spec login_user_spec.

End UseCases.

(* ------------------------------------------------------------------ *)
(** ** Vocabulary of the properties *)

(** The shape shared by the three finders. *)
Definition find_one {VO : ValueObjects} (p : UserModel -> bool)
  : M (option (User VO)) :=
  rows <- execute_select p ;;
  model <- lift (scalar_one_or_none rows) ;;
  ret (entity_or_none model).

(** The shape shared by the two existence tests. *)
Definition exists_one (p : UserModel -> bool) : M bool :=
  rows <- execute_select p ;;
  i <- lift (scalar_one_or_none (map m_id rows)) ;;
  ret (is_not_None i).

(** The 401 responses of the required resolver. *)
Definition unauthorized (detail : string) : exn :=
  HTTPException HTTP_401_UNAUTHORIZED detail [("WWW-Authenticate", "Bearer")].

(** The generic failure of the registration endpoint. *)
Definition registration_500 : exn :=
  HTTPException HTTP_500_INTERNAL_SERVER_ERROR
                "Internal server error during registration" [].

(** The response sign_up gives for a duplicate user. *)
Definition duplicate_user_response (e : exn) : Prop :=
  exists field value,
    e = HTTPException HTTP_400_BAD_REQUEST
          ("User with " ++ field ++ " " ++ value ++ " already exists") [].

(** Two rows that agree on every column but hashed_password. *)
Definition same_public (r r' : UserModel) : Prop :=
  m_id r = m_id r'
  /\ m_email r = m_email r'
  /\ m_username r = m_username r'
  /\ m_is_active r = m_is_active r'
  /\ m_created_at r = m_created_at r'
  /\ m_updated_at r = m_updated_at r'.

Section Vocabulary.

Context {VO : ValueObjects} {DRV : SqlDriver} {JWT : JwtService VO}
        {PWD : PasswordService}.

(** A collaborator of the required resolver raises [e]: the token decoder
    does, or it returns a user id and the store lookup raises. *)
Definition collaborator_raises
    (creds : option HTTPAuthorizationCredentials) (s : Session) (e : exn)
  : Prop :=
  exists c,
    creds = Some c /\
    (get_user_id_from_token (credentials c) = Raise e
     \/ exists uid,
          get_user_id_from_token (credentials c) = Ret (Some uid) /\
          fst (get_by_id uid s) = Raise e).

(** The request carries a token that decodes to the id of a stored, active
    user [u]. *)
Definition resolves_to
    (creds : option HTTPAuthorizationCredentials) (s : Session) (u : User VO)
  : Prop :=
  exists c uid,
    creds = Some c /\
    get_user_id_from_token (credentials c) = Ret (Some uid) /\
    fst (get_by_id uid s) = Ret (Some u) /\
    is_active u = true.

(** The three ways a request fails to authenticate: no bearer token, a
    token that yields no user id, a user that is missing or inactive. *)
Definition unauthenticated
    (creds : option HTTPAuthorizationCredentials) (s : Session) : Prop :=
  creds = None
  \/ (exists c, creds = Some c /\
                get_user_id_from_token (credentials c) = Ret None)
  \/ (exists c uid,
        creds = Some c /\
        get_user_id_from_token (credentials c) = Ret (Some uid) /\
        (fst (get_by_id uid s) = Ret None
         \/ exists u, fst (get_by_id uid s) = Ret (Some u)
                      /\ is_active u = false)).

(** [current_user] with another password hash. *)
Definition with_hashed_password (h : string) (u : User VO) : User VO :=
  mkUser (id u) (email u) (username u) h (is_active u)
         (created_at u) (updated_at u).

(** Selection predicates of the three finders. *)
Definition key_id (i : UserId) (r : UserModel) : bool :=
  String.eqb (m_id r) (UserId_str i).
Definition key_email (e : Email) (r : UserModel) : bool :=
  String.eqb (m_email r) (Email_str e).
Definition key_username (n : string) (r : UserModel) : bool :=
  String.eqb (m_username r) n.

(** A finder returns the entity of the one stored row its key selects, and
    None when the key selects no row; it does not touch the session. *)
Definition finds_by (find : M (option (User VO))) (key : UserModel -> bool)
    (s : Session) : Prop :=
  (forall u, fst (find s) = Ret (Some u) <->
             broken s = None /\
             exists r, filter key (table s) = [r] /\ u = _model_to_entity r)
  /\ (fst (find s) = Ret None <->
      broken s = None /\ filter key (table s) = [])
  /\ snd (find s) = s.

(** What update may do to a row: the id and created_at stay, and a row
    with another id stays whole. *)
Definition row_frame (u : User VO) (r r' : UserModel) : Prop :=
  m_id r' = m_id r
  /\ m_created_at r' = m_created_at r
  /\ (m_id r <> UserId_str (id u) -> r' = r).

(** What a successful update writes to the rows with the user's id. *)
Definition row_written (u : User VO) (r r' : UserModel) : Prop :=
  m_id r = UserId_str (id u) ->
  m_email r' = Email_str (email u)
  /\ m_username r' = username u
  /\ m_hashed_password r' = hashed_password u
  /\ m_is_active r' = is_active u
  /\ m_updated_at r' = updated_at u.

(** The handler of [create], as a function of the exception it receives. *)
Definition create_handler (user : User VO) (e : exn) : exn :=
  match e with
  | IntegrityError msg =>
      if str_in "email" msg then
        ValueError ("User with email " ++ Email_str (email user)
                    ++ " already exists")
      else if str_in "username" msg then
        ValueError ("User with username " ++ username user
                    ++ " already exists")
      else e
  | _ => e
  end.

(** The three failed logins of section 4.3: nobody has the identifier, the
    user is inactive, the password does not verify. *)
Definition login_fails (d : UserLoginDTO) (s : Session) : Prop :=
  fst (find_by_identifier (l_identifier d) s) = Ret None
  \/ exists u, fst (find_by_identifier (l_identifier d) s) = Ret (Some u)
               /\ (is_active u = false
                   \/ verify_password (l_password d) (hashed_password u)
                      = false).

End Vocabulary.

(** The uniqueness the users table is declared with: no two rows share an
    id, an email or a username. *)
Definition unique_rows (t : list UserModel) : Prop :=
  NoDup (map m_id t) /\ NoDup (map m_email t) /\ NoDup (map m_username t).

(** The generic failures of the login and refresh endpoints. *)
Definition login_500 : exn :=
  HTTPException HTTP_500_INTERNAL_SERVER_ERROR
                "Internal server error during login" [].

Definition refresh_500 : exn :=
  HTTPException HTTP_500_INTERNAL_SERVER_ERROR
                "Internal server error during token refresh" [].

(* ------------------------------------------------------------------ *)
(** ** Concrete collaborators, used to run the embedding on examples *)

Module Demo.

(** Value objects that wrap the string they were built from. *)
#[export] Instance string_objects : ValueObjects := {|
  UserId := string;
  Email := string;
  UserId_new := fun s => s;
  UserId_str := fun s => s;
  Email_new := fun s => s;
  Email_str := fun s => s
|}.

#[export] Instance string_objects_laws : ValueObjectsLaws string_objects := {|
  UserId_new_str := fun _ => eq_refl;
  Email_new_str := fun _ => eq_refl
|}.

Definition column_name (c : column) : string :=
  match c with
  | col_id => "id"
  | col_email => "email"
  | col_username => "username"
  end.

Definition column_value (c : column) (m : UserModel) : string :=
  match c with
  | col_id => m_id m
  | col_email => m_email m
  | col_username => m_username m
  end.

Definition constraint_name (c : column) : string :=
  match c with
  | col_id => "users_pkey"
  | col_email => "users_email_key"
  | col_username => "users_username_key"
  end.

(** The message PostgreSQL gives for a unique violation. *)
Definition postgres_text (c : column) (m : UserModel) : string :=
  "duplicate key value violates unique constraint " ++ constraint_name c
  ++ " DETAIL: Key (" ++ column_name c ++ ")=(" ++ column_value c m
  ++ ") already exists.".

(** [str(e)] the way SQLAlchemy renders a DBAPI error: the message of the
    database followed by the statement that failed.  The column list of the
    INSERT contains the words ["email"] and ["username"] whichever
    constraint was violated. *)
Definition postgres_with_statement : SqlDriver := {|
  integrity_text := fun c m =>
    postgres_text c m
    ++ " [SQL: INSERT INTO users (id, email, username, hashed_password, "
    ++ "is_active, created_at, updated_at) VALUES (...)]"
|}.

#[export] Instance postgres : SqlDriver := postgres_with_statement.

(** A driver whose [str(e)] is the message of the database alone.
    SQLAlchemy does not render errors this way; the examples use it to
    reach the second and third branch of [create]'s handler. *)
Definition message_only : SqlDriver := {|
  integrity_text := postgres_text
|}.

(** A token service for the examples: ["uid:x"] decodes to user [x],
    ["boom"] makes the decoder raise, anything else is rejected. *)
#[export] Instance jwt : JwtService string_objects := {|
  get_user_id_from_token := fun tok =>
    if String.prefix "uid:" tok
    then Ret (Some (String.substring 4 (String.length tok - 4) tok))
    else if String.eqb tok "boom" then Raise (RuntimeError "decode error")
    else Ret None;
  create_access_token := fun uid => "access:" ++ uid;
  create_refresh_token := fun uid => "refresh:" ++ uid
|}.

#[export] Instance pwd : PasswordService := {|
  hash_password := fun p => "hash(" ++ p ++ ")";
  verify_password := fun p h => String.eqb ("hash(" ++ p ++ ")") h
|}.

#[export] Instance fresh : Fresh string_objects := {|
  new_user_id := "u2";
  utcnow := 1000%Z
|}.

Definition alice : User string_objects :=
  mkUser "u1" "a@x.com" "alice" "hash(secret1)" true 10%Z 10%Z.

Definition bob_inactive : User string_objects :=
  mkUser "u3" "b@x.com" "bob" "hash(secret2)" false 20%Z 20%Z.

Definition rows0 : list UserModel :=
  [_entity_to_model alice; _entity_to_model bob_inactive].

(** A healthy session on a store holding alice and bob. *)
Definition session0 : Session := mkSession rows0 rows0 [] None false.

(** The same store behind a lost connection. *)
Definition session_down : Session :=
  mkSession rows0 rows0 [] (Some "connection lost") false.

Definition bearer (tok : string) : option HTTPAuthorizationCredentials :=
  Some (mkCredentials "Bearer" tok).

(** A newcomer whose id, email and username are all free. *)
Definition zed : User string_objects :=
  mkUser "u9" "z@x.com" "zed" "h" true 5%Z 5%Z.

(** A newcomer with alice's email. *)
Definition yan : User string_objects :=
  mkUser "u8" "a@x.com" "yan" "h" true 6%Z 6%Z.

(** An edit of bob: new email, new hash, reactivated. *)
Definition bob_edited : User string_objects :=
  mkUser "u3" "b2@x.com" "bob" "hash(new)" true 999%Z 30%Z.

(** bob as the store holds him after the edit: created_at is the old one. *)
Definition bob_after : User string_objects :=
  mkUser "u3" "b2@x.com" "bob" "hash(new)" true 20%Z 30%Z.

(** Somebody who is not stored. *)
Definition nobody : User string_objects :=
  mkUser "u7" "q@x.com" "quinn" "h" true 1%Z 1%Z.

(** A refresh use case for the examples: it accepts alice's refresh token
    and rejects every other string. *)
Definition token_use_cases : TokenUseCases :=
  mkTokenUseCases (fun tok =>
    if String.eqb tok "refresh:u1"
    then ret (PTokens "access:u1" "refresh:u1")
    else raise (ValueError "Invalid refresh token")).

(** A use case whose result lacks the "tokens" entry. *)
Definition half_use_cases : AuthUseCases :=
  mkAuthUseCases
    (fun d => ret [("user", PStr (c_username d))])
    (fun d => ret [("user", PStr (l_identifier d))]).

(** The store of [session0] with alice's hash replaced. *)
Definition session0_rehashed : Session :=
  let t := [_entity_to_model (with_hashed_password "hash(other)" alice);
            _entity_to_model bob_inactive] in
  mkSession t t [] None false.

End Demo.

(* ------------------------------------------------------------------ *)
(** ** Runs of the embedding on concrete inputs *)

Section Runs.
Import Demo.

Example run_get_by_id :
  fst (get_by_id "u1" session0) = Ret (Some alice).
Proof. reflexivity. Qed.

Example run_get_by_email_absent :
  fst (get_by_email "nobody@x.com" session0) = Ret None.
Proof. reflexivity. Qed.

Example run_exists_by_username :
  fst (exists_by_username "bob" session0) = Ret true.
Proof. reflexivity. Qed.

Example run_optional_good :
  fst (get_current_user_optional (bearer "uid:u1") session0) = Ret (Some alice).
Proof. reflexivity. Qed.

Example run_optional_decoder_raises :
  fst (get_current_user_optional (bearer "boom") session0) = Ret None.
Proof. reflexivity. Qed.

Example run_optional_store_down :
  fst (get_current_user_optional (bearer "uid:u1") session_down) = Ret None.
Proof. reflexivity. Qed.

Example run_required_inactive :
  fst (get_current_user (bearer "uid:u3") session0)
  = Raise (HTTPException 401 "User not found or inactive"
                         [("WWW-Authenticate", "Bearer")]).
Proof. reflexivity. Qed.

Example run_required_store_down :
  fst (get_current_user (bearer "uid:u1") session_down)
  = Raise (OperationalError "connection lost").
Proof. reflexivity. Qed.

(** The scenario of section 8: registering with alice's email and a new
    username is refused with the email named. *)
Example run_sign_up_duplicate_email :
  fst (sign_up (mkUserCreateDTO "a@x.com" "carol" "pw") auth_use_cases_spec
               session0)
  = Raise (HTTPException 400 "User with email a@x.com already exists" []).
Proof. reflexivity. Qed.

Example run_sign_up_fresh :
  fst (sign_up (mkUserCreateDTO "c@x.com" "carol" "pw") auth_use_cases_spec
               session0)
  = Ret [("message", PStr "User registered successfully");
         ("user", PUser (mkUserResponseDTO "u2" "c@x.com" "carol" true
                                           1000 1000));
         ("tokens", PTokens "access:u2" "refresh:u2")].
Proof. reflexivity. Qed.

Example run_login_ok :
  fst (login (mkUserLoginDTO "alice" "secret1") auth_use_cases_spec session0)
  = Ret [("message", PStr "Login successful");
         ("user", PUser (get_current_user_info alice));
         ("tokens", PTokens "access:u1" "refresh:u1")].
Proof. reflexivity. Qed.

(** A write that collides on the email column while the pre-check is not
    consulted: [create] names the email. *)
Example run_create_email_collision :
  fst (create (mkUser "u9" "a@x.com" "zed" "h" true 5%Z 5%Z) session0)
  = Raise (ValueError "User with email a@x.com already exists").
Proof. reflexivity. Qed.

(** A write that collides on the username column: the error text quotes
    the INSERT statement, whose column list contains the word ["email"], so
    the first test of the handler matches and the email is named. *)
Example run_create_username_collision_with_statement :
  fst (create (mkUser "u9" "z@x.com" "alice" "h" true 5%Z 5%Z) session0)
  = Raise (ValueError "User with email z@x.com already exists").
Proof. reflexivity. Qed.

(** A primary-key collision is answered the same way, for the same
    reason. *)
Example run_create_id_collision :
  fst (create (mkUser "u1" "z@x.com" "zed" "h" true 5%Z 5%Z) session0)
  = Raise (ValueError "User with email z@x.com already exists").
Proof. reflexivity. Qed.

(** With the message of the database alone as error text, the username
    collision reaches the second test of the handler. *)
Example run_create_username_collision :
  fst (@create string_objects message_only
               (mkUser "u9" "z@x.com" "alice" "h" true 5%Z 5%Z) session0)
  = Raise (ValueError "User with username alice already exists").
Proof. reflexivity. Qed.

(** With the message of the database alone as error text, the primary-key
    collision names neither column and the [IntegrityError] leaves [create]
    as it came. *)
Example run_create_id_collision_message_only :
  fst (@create string_objects message_only
               (mkUser "u1" "z@x.com" "zed" "h" true 5%Z 5%Z) session0)
  = Raise (IntegrityError
      ("duplicate key value violates unique constraint users_pkey "
       ++ "DETAIL: Key (id)=(u1) already exists.")).
Proof. reflexivity. Qed.

Example run_update :
  table (snd (update (mkUser "u3" "b2@x.com" "bob" "hash(new)" true 999%Z 30%Z)
                     session0))
  = [_entity_to_model alice;
     mkUserModel "u3" "b2@x.com" "bob" "hash(new)" true 20%Z 30%Z].
Proof. reflexivity. Qed.

Example run_update_missing :
  update (mkUser "u7" "q@x.com" "q" "h" true 1%Z 1%Z) session0
  = (Raise NoResultFound, session0).
Proof. reflexivity. Qed.

Example run_get_session_commit :
  get_session (create (mkUser "u9" "z@x.com" "zed" "h" true 5%Z 5%Z)) session0
  = (Ret (mkUser "u9" "z@x.com" "zed" "h" true 5%Z 5%Z),
     let t := (rows0 ++ [mkUserModel "u9" "z@x.com" "zed" "h" true 5%Z 5%Z])%list
     in
     mkSession t t [] None true).
Proof. reflexivity. Qed.

Example run_get_session_rollback :
  get_session
    (create (mkUser "u9" "z@x.com" "zed" "h" true 5%Z 5%Z) ;;
     create (mkUser "u8" "a@x.com" "yan" "h" true 6%Z 6%Z)) session0
  = (Raise (ValueError "User with email a@x.com already exists"),
     mkSession rows0 rows0 [] None true).
Proof. reflexivity. Qed.

End Runs.

(* ------------------------------------------------------------------ *)
(** ** Basic facts about sessions and statements *)

(** Destructs the existentials, pairs and alternatives among the
    hypotheses and identifies what two equations say about one call. *)
Ltac unpack :=
  repeat match goal with
         | H : exists _, _ |- _ => destruct H
         | H : _ /\ _ |- _ => destruct H
         | H : _ \/ _ |- _ => destruct H
         | H : Some _ = Some _ |- _ => injection H as H; subst
         | H : Ret _ = Ret _ |- _ => injection H as H; subst
         | H : ?a = Ret _, H' : ?a = _ |- _ => rewrite H in H'
         | H : ?a = Raise _, H' : ?a = _ |- _ => rewrite H in H'
         end;
  try discriminate; try congruence.

(** A prefix is a left factor. *)
Lemma prefix_iff_append (n h : string) :
  String.prefix n h = true <-> exists b, h = n ++ b.
Proof.
  revert h. induction n as [|c n IH]; intros h.
  - split; [intros _; now exists h | intros _; now destruct h].
  - destruct h as [|c' h]; cbn.
    + split; [discriminate | intros [b H]; discriminate].
    + destruct (Ascii.ascii_dec c c') as [->|N].
      * rewrite IH. split; intros [b H]; exists b; congruence.
      * split; [discriminate | intros [b H]; injection H as H _; congruence].
Qed.

Lemma str_in_unfold (n h : string) :
  str_in n h =
  if String.prefix n h then true
  else match h with
       | EmptyString => false
       | String _ rest => str_in n rest
       end.
Proof. destruct h; reflexivity. Qed.

(** [str_in] is Python's substring test. *)
Lemma str_in_iff_substring (n h : string) :
  str_in n h = true <-> exists a b, h = a ++ n ++ b.
Proof.
  induction h as [|c h IH]; rewrite str_in_unfold.
  - destruct (String.prefix n "") eqn:P.
    + apply prefix_iff_append in P. destruct P as [b P].
      split; [intros _; exists "", b; exact P | reflexivity].
    + split; [discriminate|]. intros (a & b & H).
      destruct a; [|discriminate]. cbn in H.
      assert (String.prefix n "" = true) by (apply prefix_iff_append; eauto).
      congruence.
  - destruct (String.prefix n (String c h)) eqn:P.
    + apply prefix_iff_append in P. destruct P as [b P].
      split; [intros _; exists "", b; exact P | reflexivity].
    + rewrite IH. split.
      * intros (a & b & ->). now exists (String c a), b.
      * intros (a & b & H). destruct a as [|c' a]; cbn in H.
        -- assert (String.prefix n (String c h) = true)
             by (apply prefix_iff_append; eauto).
           congruence.
        -- injection H as _ ->. eauto.
Qed.

Lemma set_table_same (s : Session) : set_table (table s) s = s.
Proof. now destruct s. Qed.

(** A SELECT returns the matching rows of a healthy session, raises on a
    lost connection, and leaves the session as it was. *)
Lemma execute_select_run (p : UserModel -> bool) (s : Session) :
  execute_select p s =
  (match broken s with
   | Some msg => Raise (OperationalError msg)
   | None => Ret (filter p (table s))
   end, s).
Proof.
  unfold execute_select, statement.
  destruct (broken s); [reflexivity|]. now rewrite set_table_same.
Qed.

Lemma find_one_run {VO : ValueObjects} (p : UserModel -> bool) (s : Session) :
  find_one p s =
  (match broken s with
   | Some msg => Raise (OperationalError msg)
   | None => match filter p (table s) with
             | [] => Ret None
             | [r] => Ret (Some (_model_to_entity r))
             | _ :: _ :: _ => Raise MultipleResultsFound
             end
   end, s).
Proof.
  unfold find_one, bind. rewrite execute_select_run.
  destruct (broken s); [reflexivity|].
  destruct (filter p (table s)) as [|r [|r' l]]; reflexivity.
Qed.

Lemma exists_one_run (p : UserModel -> bool) (s : Session) :
  exists_one p s =
  (match broken s with
   | Some msg => Raise (OperationalError msg)
   | None => match filter p (table s) with
             | [] => Ret false
             | [r] => Ret true
             | _ :: _ :: _ => Raise MultipleResultsFound
             end
   end, s).
Proof.
  unfold exists_one, bind. rewrite execute_select_run.
  destruct (broken s); [reflexivity|].
  destruct (filter p (table s)) as [|r [|r' l]]; reflexivity.
Qed.

Lemma session_flush_run {DRV : SqlDriver} (s : Session) :
  session_flush s =
  match broken s with
  | Some msg => (Raise (OperationalError msg), s)
  | None =>
      match insert_all (pending s) (table s) with
      | Ret t => (Ret tt, set_pending [] (set_table t s))
      | Raise e => (Raise e, set_pending [] s)
      end
  end.
Proof. reflexivity. Qed.

(* ------------------------------------------------------------------ *)
(** ** Properties of the entity conversion *)

Section Conversion.

Context {VO : ValueObjects}.

(** Whatever the value objects are, converting an entity to a persistence
    model and back rebuilds the id and the email from their string forms
    and copies the five plain attributes through. *)
Lemma entity_model_rebuilt (u : User VO) :
  _model_to_entity (_entity_to_model u)
  = mkUser (UserId_new (UserId_str (id u)))
           (Email_new (Email_str (email u)))
           (username u) (hashed_password u) (is_active u)
           (created_at u) (updated_at u).
Proof. reflexivity. Qed.

(** So the conversion round-trips when the value objects are rebuilt from
    their own string forms. *)
Lemma entity_model_roundtrip (L : ValueObjectsLaws VO) (u : User VO) :
  _model_to_entity (_entity_to_model u) = u.
Proof.
  destruct u as [i e n h a c t].
  unfold _model_to_entity, _entity_to_model. cbn.
  rewrite UserId_new_str, Email_new_str. reflexivity.
Qed.

End Conversion.

(** The value objects of the specification are rebuilt from their own
    string forms. *)
Lemma spec_value_objects_laws : ValueObjectsLaws spec_value_objects.
Proof. split; intros []; reflexivity. Qed.

(** C8: with [UserId] and [Email] as the specification describes them,
    converting an entity to a persistence model and back yields the entity
    it started from: the id and the email come back through their string
    forms, the model holding exactly those strings, and username,
    hashed_password, is_active, created_at and updated_at are copied
    unchanged in both directions. *)
Theorem spec_entity_model_roundtrip (u : User spec_value_objects) :
  _model_to_entity (_entity_to_model u) = u
  /\ m_id (_entity_to_model u) = user_id_value (id u)
  /\ m_email (_entity_to_model u) = email_value (email u)
  /\ m_username (_entity_to_model u) = username u
  /\ m_hashed_password (_entity_to_model u) = hashed_password u
  /\ m_is_active (_entity_to_model u) = is_active u
  /\ m_created_at (_entity_to_model u) = created_at u
  /\ m_updated_at (_entity_to_model u) = updated_at u.
Proof.
  split; [|repeat split].
  rewrite entity_model_rebuilt.
  destruct u as [[i] [e] n h a c t]. reflexivity.
Qed.

(* ------------------------------------------------------------------ *)
(** ** Properties of the identity resolvers *)

Section Resolvers.

Context {VO : ValueObjects} {JWT : JwtService VO}.

(** A lookup by id leaves the session as it was. *)
Lemma get_by_id_session (uid : UserId) (s : Session) :
  snd (get_by_id uid s) = s.
Proof.
  change (get_by_id uid) with (find_one (key_id uid)).
  now rewrite find_one_run.
Qed.

(** The optional resolver, outcome by outcome of its two collaborators. *)
Lemma get_current_user_optional_run
    (creds : option HTTPAuthorizationCredentials) (s : Session) :
  fst (get_current_user_optional creds s) =
  Ret match creds with
      | None => None
      | Some c =>
          match get_user_id_from_token (credentials c) with
          | Ret (Some uid) =>
              match fst (get_by_id uid s) with
              | Ret (Some u) => if is_active u then Some u else None
              | _ => None
              end
          | _ => None
          end
      end.
Proof.
  destruct creds as [c|]; [|reflexivity].
  unfold get_current_user_optional, try_except, bind, lift.
  destruct (get_user_id_from_token (credentials c)) as [[uid|]|e];
    try reflexivity.
  destruct (get_by_id uid s) as [[[u|]|e] s']; cbn; try reflexivity.
  destruct (is_active u); reflexivity.
Qed.

(** C1: whatever the request carries (no credentials, a token the decoder
    rejects or chokes on, an id without a stored user, an inactive user, a
    store that raises), the optional resolver returns; it returns a user
    exactly when the token decodes to the id of a stored active user, and
    None in every other case. *)
Theorem get_current_user_optional_never_raises
    (creds : option HTTPAuthorizationCredentials) (s : Session) :
  exists o : option (User VO),
    fst (get_current_user_optional creds s) = Ret o
    /\ (forall u, o = Some u <-> resolves_to creds s u)
    /\ (o = None <-> ~ exists u, resolves_to creds s u).
Proof.
  rewrite get_current_user_optional_run.
  eexists; split; [reflexivity|].
  unfold resolves_to.
  destruct creds as [c|];
    [ destruct (get_user_id_from_token (credentials c)) as [[uid|]|e] eqn:Ht;
      [ destruct (fst (get_by_id uid s)) as [[u0|]|e] eqn:Hg;
        [ destruct (is_active u0) eqn:Ha | .. ] | .. ] | ];
    (split; [intros u|]; split; intros H; unpack; try (intros H'; unpack)).
  - exists c, uid. auto.
  - exfalso. apply H. exists u0, c, uid. auto.
Qed.

(** The required resolver, outcome by outcome of its two collaborators. *)
Lemma get_current_user_run
    (creds : option HTTPAuthorizationCredentials) (s : Session) :
  get_current_user creds s =
  (match creds with
   | None => Raise (unauthorized "Not authenticated")
   | Some c =>
       match get_user_id_from_token (credentials c) with
       | Raise e => Raise e
       | Ret None => Raise (unauthorized "Invalid authentication credentials")
       | Ret (Some uid) =>
           match fst (get_by_id uid s) with
           | Raise e => Raise e
           | Ret None => Raise (unauthorized "User not found or inactive")
           | Ret (Some u) =>
               if is_active u then Ret u
               else Raise (unauthorized "User not found or inactive")
           end
       end
   end, s).
Proof.
  destruct creds as [c|]; [|reflexivity].
  unfold get_current_user, bind, lift.
  destruct (get_user_id_from_token (credentials c)) as [[uid|]|e];
    try reflexivity.
  pose proof (get_by_id_session uid s) as Hs.
  destruct (get_by_id uid s) as [[[u|]|e] s']; cbn in *; subst s';
    try reflexivity.
  destruct (is_active u); reflexivity.
Qed.

(** The three ways the required resolver ends exclude one another. *)
Lemma unauthenticated_not_resolved
    (creds : option HTTPAuthorizationCredentials) (s : Session) :
  unauthenticated creds s ->
  (forall u, ~ resolves_to creds s u)
  /\ (forall e, ~ collaborator_raises creds s e).
Proof.
  unfold unauthenticated, resolves_to, collaborator_raises.
  intros H. split; [intros u Hr | intros e Hc]; unpack.
Qed.

(** What the required resolver returns is a stored active user. *)
Lemma get_current_user_returns
    (creds : option HTTPAuthorizationCredentials) (s : Session) (u : User VO) :
  fst (get_current_user creds s) = Ret u <-> resolves_to creds s u.
Proof.
  rewrite get_current_user_run. cbn [fst]. unfold resolves_to. split.
  - destruct creds as [c|]; [|discriminate].
    destruct (get_user_id_from_token (credentials c)) as [[uid|]|e] eqn:Ht;
      try discriminate.
    destruct (fst (get_by_id uid s)) as [[u0|]|e] eqn:Hg; try discriminate.
    destruct (is_active u0) eqn:Ha; try discriminate.
    intros [= <-]. exists c, uid. auto.
  - intros (c & uid & -> & -> & -> & ->). reflexivity.
Qed.

(** C3, as the code has it: the required resolver raises a 401
    HTTPException of its own whenever the bearer token is absent, the token
    yields no user id, or the user is missing or inactive; it returns a
    user exactly when the token resolves to that stored active user; and
    what the token decoder or the store lookup raises leaves it unchanged.
    One of the three always happens, and when no collaborator raises the
    401 is raised exactly in the first case. *)
Theorem get_current_user_outcomes
    (creds : option HTTPAuthorizationCredentials) (s : Session) :
  (unauthenticated creds s ->
   exists detail, fst (get_current_user creds s) = Raise (unauthorized detail))
  /\ (forall u, fst (get_current_user creds s) = Ret u <->
                resolves_to creds s u)
  /\ (forall e, collaborator_raises creds s e ->
                fst (get_current_user creds s) = Raise e)
  /\ (unauthenticated creds s
      \/ (exists u, resolves_to creds s u)
      \/ (exists e, collaborator_raises creds s e))
  /\ ((forall e, ~ collaborator_raises creds s e) ->
      ((exists detail headers,
           fst (get_current_user creds s)
           = Raise (HTTPException HTTP_401_UNAUTHORIZED detail headers))
       <-> unauthenticated creds s)).
Proof.
  assert (Hraise : forall e, collaborator_raises creds s e ->
                             fst (get_current_user creds s) = Raise e).
  { intros e (c & -> & [Ht | (uid & Ht & Hg)]);
      rewrite get_current_user_run; cbn [fst]; rewrite Ht;
      [reflexivity | now rewrite Hg]. }
  assert (Hcases : (unauthenticated creds s
                    /\ exists detail,
                         fst (get_current_user creds s)
                         = Raise (unauthorized detail))
                   \/ (exists u, resolves_to creds s u)
                   \/ (exists e, collaborator_raises creds s e)).
  { rewrite get_current_user_run. cbn [fst].
    unfold unauthenticated, resolves_to, collaborator_raises.
    destruct creds as [c|]; [|left; split; [now left | eauto]].
    destruct (get_user_id_from_token (credentials c)) as [[uid|]|e] eqn:Ht.
    - destruct (fst (get_by_id uid s)) as [[u|]|e] eqn:Hg.
      + destruct (is_active u) eqn:Ha.
        * right; left. exists u, c, uid. auto.
        * left. split; [right; right; exists c, uid; eauto 6 | eauto].
      + left. split; [right; right; exists c, uid; auto | eauto].
      + right; right. exists e, c. split; [reflexivity|].
        right. exists uid. auto.
    - left. split; [right; left; now exists c | eauto].
    - right; right. exists e, c. auto. }
  split; [|split; [|split; [|split]]].
  - intros Hu. destruct Hcases as [[_ H] | [[u Hr] | [e Hc]]]; [exact H|..];
      exfalso; destruct (unauthenticated_not_resolved creds s Hu) as [H1 H2];
      [exact (H1 u Hr) | exact (H2 e Hc)].
  - apply get_current_user_returns.
  - exact Hraise.
  - destruct Hcases as [[H _] | [H | H]]; auto.
  - intros Hnone. split.
    + intros (detail & headers & H401).
      destruct Hcases as [[Hu _] | [[u Hr] | [e Hc]]]; [exact Hu|..]; exfalso.
      * apply get_current_user_returns in Hr. congruence.
      * exact (Hnone e Hc).
    + intros Hu.
      destruct Hcases as [[_ [detail H]] | [[u Hr] | [e Hc]]].
      * exists detail, [("WWW-Authenticate", "Bearer")]. exact H.
      * exfalso. exact (proj1 (unauthenticated_not_resolved creds s Hu) u Hr).
      * exfalso. exact (Hnone e Hc).
Qed.

(** A user the required resolver returns is active. *)
Lemma get_current_user_active
    (creds : option HTTPAuthorizationCredentials) (s : Session) (u : User VO) :
  fst (get_current_user creds s) = Ret u -> is_active u = true.
Proof.
  intros Hu. apply get_current_user_returns in Hu.
  now destruct Hu as (c & uid & _ & _ & _ & Ha).
Qed.

Lemma get_current_active_user_of_active (u : User VO) :
  is_active u = true -> get_current_active_user u = Ret u.
Proof. intros Ha. unfold get_current_active_user. now rewrite Ha. Qed.

(** The chained dependency is the required resolver. *)
Lemma depends_get_current_active_user_run
    (creds : option HTTPAuthorizationCredentials) (s : Session) :
  depends_get_current_active_user creds s = get_current_user creds s.
Proof.
  unfold depends_get_current_active_user, bind, lift.
  pose proof (get_current_user_active creds s) as Hact.
  destruct (get_current_user creds s) as [[u|e] s']; [|reflexivity].
  now rewrite (get_current_active_user_of_active u (Hact u eq_refl)).
Qed.

(** C10: a user returned by get_current_user is active, so
    get_current_active_user takes its second branch on it and returns it
    unchanged (its 400 branch is not taken); the chained dependency is
    get_current_user itself. *)
Theorem get_current_active_user_is_identity
    (creds : option HTTPAuthorizationCredentials) (s : Session) :
  (forall u, fst (get_current_user creds s) = Ret u ->
             is_active u = true /\ get_current_active_user u = Ret u)
  /\ depends_get_current_active_user creds s = get_current_user creds s.
Proof.
  split.
  - intros u Hu. pose proof (get_current_user_active creds s u Hu) as Ha.
    split; [exact Ha | now apply get_current_active_user_of_active].
  - apply depends_get_current_active_user_run.
Qed.

End Resolvers.

(* ------------------------------------------------------------------ *)
(** ** Properties of the /me view *)

Section View.

Context {VO : ValueObjects} {JWT : JwtService VO}.

Lemma me_endpoint_run
    (creds : option HTTPAuthorizationCredentials) (s : Session) :
  fst (me_endpoint creds s) =
  match fst (get_current_user creds s) with
  | Ret u => Ret (get_current_user_info u)
  | Raise e => Raise e
  end.
Proof.
  unfold me_endpoint, bind. rewrite depends_get_current_active_user_run.
  destruct (get_current_user creds s) as [[u|e] s']; reflexivity.
Qed.

(** Selecting by a key that reads public columns keeps two tables that
    agree on the public columns in agreement. *)
Lemma filter_same_public (key : UserModel -> bool) (t1 t2 : list UserModel) :
  (forall r r', same_public r r' -> key r = key r') ->
  Forall2 same_public t1 t2 ->
  Forall2 same_public (filter key t1) (filter key t2).
Proof.
  intros Hkey H. induction H as [|r r' t1 t2 Hr Ht IH]; cbn; [constructor|].
  rewrite (Hkey r r' Hr). destruct (key r'); [constructor|]; assumption.
Qed.

Lemma entity_same_public (r r' : UserModel) :
  same_public r r' ->
  _model_to_entity r'
  = with_hashed_password (m_hashed_password r') (_model_to_entity r).
Proof.
  destruct r, r'. unfold same_public. cbn.
  intros (-> & -> & -> & -> & -> & ->). reflexivity.
Qed.

(** Lookups by id in two stores that agree on the public columns end the
    same way, and the users they return differ in the hash at most. *)
Lemma get_by_id_same_public (uid : UserId) (s1 s2 : Session) :
  broken s1 = broken s2 ->
  Forall2 same_public (table s1) (table s2) ->
  match fst (get_by_id uid s1), fst (get_by_id uid s2) with
  | Ret (Some u1), Ret (Some u2) => exists h, u2 = with_hashed_password h u1
  | Ret None, Ret None => True
  | Raise e1, Raise e2 => e1 = e2
  | _, _ => False
  end.
Proof.
  intros Hb Ht.
  change (get_by_id uid) with (find_one (key_id uid)).
  rewrite !find_one_run, <- Hb. cbn [fst].
  destruct (broken s1); [reflexivity|].
  assert (Hf : Forall2 same_public (filter (key_id uid) (table s1))
                                   (filter (key_id uid) (table s2))).
  { apply filter_same_public; [|exact Ht].
    intros r r' (Hid & _). unfold key_id. now rewrite Hid. }
  destruct Hf as [|r r' l l' Hr Hl]; [exact I|].
  destruct Hl as [|r0 r0' l l' _ _]; [|reflexivity].
  eexists. now apply entity_same_public.
Qed.

(** C7: the /me response is built from the six public attributes of the
    user and is the same for two users that differ only in their password
    hash; so two stores that differ only in stored hashes answer every /me
    request alike. *)
Theorem me_view_ignores_hash :
  (forall (u : User VO) (h : string),
      get_current_user_info (with_hashed_password h u)
      = get_current_user_info u)
  /\ (forall u : User VO,
         get_current_user_info u
         = mkUserResponseDTO (UserId_str (id u)) (Email_str (email u))
                             (username u) (is_active u)
                             (created_at u) (updated_at u))
  /\ (forall creds s1 s2,
         broken s1 = broken s2 ->
         Forall2 same_public (table s1) (table s2) ->
         fst (me_endpoint creds s1) = fst (me_endpoint creds s2)).
Proof.
  split; [reflexivity|]. split; [reflexivity|].
  intros creds s1 s2 Hb Ht.
  rewrite !me_endpoint_run, !get_current_user_run. cbn [fst].
  destruct creds as [c|]; [|reflexivity].
  destruct (get_user_id_from_token (credentials c)) as [[uid|]|e];
    try reflexivity.
  pose proof (get_by_id_same_public uid s1 s2 Hb Ht) as H.
  destruct (fst (get_by_id uid s1)) as [[u1|]|e1],
           (fst (get_by_id uid s2)) as [[u2|]|e2];
    try contradiction; try reflexivity.
  - destruct H as [h ->]. cbn. destruct (is_active u1); reflexivity.
  - now subst.
Qed.

End View.

(* ------------------------------------------------------------------ *)
(** ** Properties of the finders and of update *)

Section Store.

Context {VO : ValueObjects} {DRV : SqlDriver}.

Lemma find_one_finds_by (key : UserModel -> bool) (s : Session) :
  finds_by (find_one key) key s.
Proof.
  unfold finds_by. rewrite find_one_run. cbn [fst snd].
  destruct (broken s) as [msg|].
  - repeat split; try discriminate; intros [H _]; discriminate.
  - destruct (filter key (table s)) as [|r [|r' l]].
    + repeat split; try discriminate.
      intros [_ (r & H & _)]; discriminate.
    + repeat split; try discriminate.
      * exists r. split; congruence.
      * intros [_ (r0 & [= ->] & ->)]. reflexivity.
      * intros [_ H]; discriminate.
    + repeat split; try discriminate.
      * intros [_ (r0 & H & _)]; discriminate.
      * intros [_ H]; discriminate.
Qed.

Lemma exists_one_true_iff (key : UserModel -> bool) (s : Session) :
  fst (exists_one key s) = Ret true <->
  exists u : User VO, fst (find_one key s) = Ret (Some u).
Proof.
  rewrite exists_one_run, find_one_run. cbn [fst].
  destruct (broken s) as [msg|].
  - split; [discriminate | intros [u H]; discriminate].
  - destruct (filter key (table s)) as [|r [|r' l]]; split;
      try discriminate; try (intros [u H]; discriminate); eauto.
Qed.

(** The row a finder's key selects is a row of the table and has the key. *)
Lemma selected_row_stored (key : UserModel -> bool) (t : list UserModel)
    (r : UserModel) :
  filter key t = [r] -> In r t /\ key r = true.
Proof.
  intros H. apply filter_In. rewrite H. now left.
Qed.

(** C5: in every store state, exists_by_email returns true exactly when
    get_by_email returns a user, and likewise for usernames; each of the
    three finders returns the entity of the stored row whose key column
    equals its argument, and None when no row has that key. *)
Theorem exists_iff_get_and_finders (s : Session) (i : UserId) (e : Email)
    (n : string) :
  (fst (exists_by_email e s) = Ret true <->
   exists u, fst (get_by_email e s) = Ret (Some u))
  /\ (fst (exists_by_username n s) = Ret true <->
      exists u, fst (get_by_username n s) = Ret (Some u))
  /\ finds_by (get_by_id i) (key_id i) s
  /\ finds_by (get_by_email e) (key_email e) s
  /\ finds_by (get_by_username n) (key_username n) s.
Proof.
  split; [|split; [|split; [|split]]].
  - exact (exists_one_true_iff (key_email e) s).
  - exact (exists_one_true_iff (key_username n) s).
  - exact (find_one_finds_by (key_id i) s).
  - exact (find_one_finds_by (key_email e) s).
  - exact (find_one_finds_by (key_username n) s).
Qed.

(** *** update *)

Lemma apply_values_frame (u : User VO) (r : UserModel) :
  row_frame u r (apply_values (UserId_str (id u)) (_entity_to_model u) r).
Proof.
  unfold row_frame, apply_values.
  destruct (String.eqb_spec (m_id r) (UserId_str (id u))) as [E|N]; cbn.
  - repeat split. intros H; contradiction.
  - repeat split.
Qed.

Lemma apply_values_written (u : User VO) (r : UserModel) :
  row_written u r (apply_values (UserId_str (id u)) (_entity_to_model u) r).
Proof.
  unfold row_written, apply_values. intros E.
  rewrite E, String.eqb_refl. cbn. repeat split.
Qed.

Lemma Forall2_map_same {A : Type} (R : A -> A -> Prop) (f : A -> A)
    (l : list A) :
  (forall a, R a (f a)) -> Forall2 R l (map f l).
Proof.
  intros H. induction l as [|a l IH]; cbn; constructor; auto.
Qed.

Lemma Forall2_same {A : Type} (R : A -> A -> Prop) (l : list A) :
  (forall a, R a a) -> Forall2 R l l.
Proof.
  intros H. induction l as [|a l IH]; constructor; auto.
Qed.

(** The session update leaves behind: either the one it found (the
    statement was refused or never sent) or that session with the values
    applied to the table; a returned entity means the values were applied. *)
Lemma update_session (u : User VO) (s : Session) :
  let key := UserId_str (id u) in
  let s' := set_table (map (apply_values key (_entity_to_model u)) (table s)) s
  in
  (snd (update u s) = s \/ snd (update u s) = s')
  /\ (forall v, fst (update u s) = Ret v -> snd (update u s) = s').
Proof.
  cbn zeta. unfold update, bind, execute_update, statement, lift.
  destruct (broken s) as [msg|].
  { split; [now left | discriminate]. }
  destruct (update_collision _ _ _) as [c|].
  { cbn. rewrite set_table_same. split; [now left | discriminate]. }
  cbn. destruct (scalar_one _) as [m|e]; cbn; split; auto; discriminate.
Qed.

(** C6: update rewrites, in the rows whose id is the user's id, only the
    email, username, hashed_password, is_active and updated_at columns:
    every row keeps its id and created_at, rows with another id are left
    whole, no row is added or removed, and on success the rows with the
    user's id hold the user's five values. *)
Theorem update_frame (u : User VO) (s : Session) :
  Forall2 (row_frame u) (table s) (table (snd (update u s)))
  /\ (forall v, fst (update u s) = Ret v ->
                Forall2 (row_written u) (table s) (table (snd (update u s))))
  /\ durable (snd (update u s)) = durable s
  /\ pending (snd (update u s)) = pending s.
Proof.
  destruct (update_session u s) as [Hs Hok]. cbn zeta in Hs, Hok.
  split; [|split; [|split]].
  - destruct Hs as [-> | ->].
    + apply Forall2_same. intros r. repeat split.
    + cbn. apply Forall2_map_same, apply_values_frame.
  - intros v Hv. rewrite (Hok v Hv). cbn.
    apply Forall2_map_same, apply_values_written.
  - destruct Hs as [-> | ->]; reflexivity.
  - destruct Hs as [-> | ->]; reflexivity.
Qed.

End Store.

(* ------------------------------------------------------------------ *)
(** ** Properties of the session dependency *)

Section SessionLifecycle.

Context {DRV : SqlDriver}.

(** A commit that returns has made the flushed table durable; a commit that
    raises has made nothing durable. *)
Lemma session_commit_run (s : Session) :
  session_commit s =
  match broken s with
  | Some msg => (Raise (OperationalError msg), s)
  | None =>
      match insert_all (pending s) (table s) with
      | Ret t => (Ret tt, mkSession t t [] (broken s) (closed s))
      | Raise e => (Raise e, set_pending [] s)
      end
  end.
Proof.
  unfold session_commit, bind. rewrite session_flush_run.
  destruct s as [t du p [msg|] c]; cbn; [reflexivity|].
  destruct (insert_all p t); reflexivity.
Qed.

Lemma session_commit_raise_durable (s s' : Session) (e : exn) :
  session_commit s = (Raise e, s') -> durable s' = durable s.
Proof.
  rewrite session_commit_run.
  destruct (broken s); [now intros [= <- <-]|].
  destruct (insert_all _ _); [discriminate | now intros [= <- <-]].
Qed.

(** get_session, outcome by outcome of the body and of the commit. *)
Lemma get_session_run {A : Type} (body : M A) (s0 : Session) :
  get_session body s0 =
  match body s0 with
  | (Ret a, s1) =>
      match session_commit s1 with
      | (Ret _, s2) => (Ret a, session_close s2)
      | (Raise e, s2) => (Raise e, session_close (session_rollback s2))
      end
  | (Raise e, s1) => (Raise e, session_close (session_rollback s1))
  end.
Proof.
  unfold get_session, try_finally, try_except, bind.
  destruct (body s0) as [[a|e] s1]; [|reflexivity].
  destruct (session_commit s1) as [[[]|e] s2]; reflexivity.
Qed.

(** C9: when the request body returns and the commit goes through, the
    table the transaction built is the durable one and the body's value is
    returned; when the body raises, the same exception is raised again and
    nothing of what the transaction wrote becomes durable (so too when the
    commit itself raises); in every outcome the session ends closed. *)
Theorem get_session_commit_rollback_close {A : Type} (body : M A)
    (s0 : Session) :
  (forall a s1 t,
      body s0 = (Ret a, s1) ->
      broken s1 = None ->
      insert_all (pending s1) (table s1) = Ret t ->
      fst (get_session body s0) = Ret a
      /\ durable (snd (get_session body s0)) = t
      /\ table (snd (get_session body s0)) = t)
  /\ (forall e s1,
         body s0 = (Raise e, s1) ->
         fst (get_session body s0) = Raise e
         /\ durable (snd (get_session body s0)) = durable s1
         /\ table (snd (get_session body s0)) = durable s1)
  /\ (forall a s1 e s2,
         body s0 = (Ret a, s1) ->
         session_commit s1 = (Raise e, s2) ->
         fst (get_session body s0) = Raise e
         /\ durable (snd (get_session body s0)) = durable s1
         /\ table (snd (get_session body s0)) = durable s1)
  /\ closed (snd (get_session body s0)) = true
  /\ pending (snd (get_session body s0)) = [].
Proof.
  rewrite get_session_run.
  split; [|split; [|split; [|split]]].
  - intros a s1 t -> Hb Hi. rewrite session_commit_run, Hb, Hi.
    repeat split.
  - intros e s1 ->. repeat split.
  - intros a s1 e s2 -> Hc. rewrite Hc. cbn.
    rewrite (session_commit_raise_durable _ _ _ Hc). repeat split.
  - destruct (body s0) as [[a|e] s1]; [|reflexivity].
    destruct (session_commit s1) as [[[]|e] s2]; reflexivity.
  - destruct (body s0) as [[a|e] s1]; [|reflexivity].
    destruct (session_commit s1) as [[[]|e] s2]; reflexivity.
Qed.

End SessionLifecycle.

(* ------------------------------------------------------------------ *)
(** ** Properties of registration and login failures *)

Section Failures.

Context {VO : ValueObjects} {DRV : SqlDriver}.

(** When the flush raises, [create] raises what its handler makes of it. *)
Lemma create_flush_raises (user : User VO) (s : Session) (e : exn) :
  fst (session_flush (set_pending (pending s ++ [_entity_to_model user]) s))
  = Raise e ->
  fst (create user s) = Raise (create_handler user e).
Proof.
  unfold create, bind, try_except, session_add.
  destruct (session_flush _) as [[[]|e'] s1]; cbn [fst]; [discriminate|].
  intros [= ->]. unfold create_handler.
  destruct e; try reflexivity.
  destruct (str_in "email" msg); [reflexivity|].
  destruct (str_in "username" msg); reflexivity.
Qed.

Lemma create_on_lost_connection (user : User VO) (s : Session) (msg : string) :
  broken s = Some msg ->
  fst (create user s) = Raise (OperationalError msg).
Proof.
  intros Hb.
  apply (create_flush_raises user s (OperationalError msg)).
  rewrite session_flush_run. cbn. now rewrite Hb.
Qed.

Lemma create_on_violation (user : User VO) (s : Session) (c : column) :
  broken s = None ->
  pending s = [] ->
  violated (table s) (_entity_to_model user) = Some c ->
  fst (create user s)
  = Raise (create_handler user
             (IntegrityError (integrity_text c (_entity_to_model user)))).
Proof.
  intros Hb Hp Hv. apply create_flush_raises.
  rewrite session_flush_run. cbn. rewrite Hb, Hp. cbn. now rewrite Hv.
Qed.

Lemma filter_none {A : Type} (p : A -> bool) (l : list A) :
  existsb p l = false -> filter p l = [].
Proof.
  induction l as [|a l IH]; cbn; [reflexivity|].
  destruct (p a); cbn; [discriminate | exact IH].
Qed.

(** A write that violates no constraint on a healthy session appends the
    row and returns the entity read back from it. *)
Lemma session_refresh_run (m : UserModel) (s : Session) :
  session_refresh m s =
  (match broken s with
   | Some msg => Raise (OperationalError msg)
   | None =>
       match filter (fun r => String.eqb (m_id r) (m_id m)) (table s) with
       | r :: _ => Ret r
       | [] => Raise (InvalidRequestError "Could not refresh instance")
       end
   end, s).
Proof.
  unfold session_refresh, bind. rewrite execute_select_run.
  destruct (broken s); [reflexivity|].
  destruct (filter _ (table s)); reflexivity.
Qed.

Lemma create_succeeds (user : User VO) (s : Session) :
  broken s = None ->
  pending s = [] ->
  violated (table s) (_entity_to_model user) = None ->
  create user s
  = (Ret (_model_to_entity (_entity_to_model user)),
     mkSession (table s ++ [_entity_to_model user]) (durable s) [] None
               (closed s)).
Proof.
  intros Hb Hp Hv.
  assert (Hid : existsb (fun r => String.eqb (m_id r)
                                    (m_id (_entity_to_model user)))
                        (table s) = false).
  { unfold violated in Hv.
    destruct (existsb _ (table s)); [discriminate | reflexivity]. }
  unfold create, bind, try_except, session_add.
  rewrite session_flush_run.
  destruct s as [t d p b c]. cbn [broken pending table] in *. subst b p.
  cbn [broken pending table set_pending set_table app insert_all durable closed].
  rewrite Hv. rewrite session_refresh_run.
  cbn [broken pending table set_pending set_table durable closed].
  rewrite filter_app, (filter_none _ _ Hid). cbn [filter app].
  rewrite String.eqb_refl. reflexivity.
Qed.

(** Nothing [create] does is durable before the commit. *)
Lemma create_keeps_durable (user : User VO) (s : Session) :
  durable (snd (create user s)) = durable s.
Proof.
  unfold create, bind, try_except, session_add.
  rewrite session_flush_run.
  destruct s as [t d p [msg|] c];
    cbn [broken pending table set_pending set_table durable closed];
    [reflexivity|].
  destruct (insert_all _ _) as [t'|e];
    cbn [broken pending table set_pending set_table durable closed].
  - rewrite session_refresh_run.
    cbn [broken pending table set_pending set_table durable closed].
    destruct (filter _ t'); reflexivity.
  - destruct e; try reflexivity.
    destruct (str_in "email" msg); [reflexivity|].
    destruct (str_in "username" msg); reflexivity.
Qed.

(** A missing key is the only way [d[key]] raises. *)
Lemma getitem_raises (r : pydict) (key : string) (e : exn) :
  getitem r key = Raise e -> e = KeyError key.
Proof.
  induction r as [|[k v] r IH]; cbn.
  - now intros [= <-].
  - destruct (String.eqb k key); [discriminate | exact IH].
Qed.

(** What sign_up raises is decided by what the use case raised. *)
Lemma sign_up_raises (auc : AuthUseCases) (d : UserCreateDTO) (s : Session)
    (e : exn) :
  fst (register_user auc d s) = Raise e ->
  fst (sign_up d auc s)
  = Raise match e with
          | ValueError msg => HTTPException HTTP_400_BAD_REQUEST msg []
          | _ => registration_500
          end.
Proof.
  unfold sign_up, try_except, bind.
  destruct (register_user auc d s) as [[r|e'] s1]; cbn [fst]; [discriminate|].
  intros [= ->]. destruct e; reflexivity.
Qed.

(** Nothing but an HTTPException with status 400 or 500 leaves sign_up. *)
Lemma sign_up_only_http (auc : AuthUseCases) (d : UserCreateDTO) (s : Session)
    (e : exn) :
  fst (sign_up d auc s) = Raise e ->
  (exists msg, e = HTTPException HTTP_400_BAD_REQUEST msg []
               /\ fst (register_user auc d s) = Raise (ValueError msg))
  \/ e = registration_500.
Proof.
  unfold sign_up, try_except, bind, lift, raise, ret.
  destruct (register_user auc d s) as [[r|e'] s1]; cbn [fst].
  - destruct (getitem r "user") as [v|e1] eqn:E1; cbn.
    2:{ rewrite (getitem_raises _ _ _ E1). intros [= <-]; now right. }
    destruct (getitem r "tokens") as [w|e2] eqn:E2; cbn; [discriminate|].
    rewrite (getitem_raises _ _ _ E2). intros [= <-]; now right.
  - destruct e'; cbn; intros [= <-]; try (now right).
    left. now exists msg.
Qed.

(** C2, as the code has it: a write that collides on the email column and
    whose error text contains "email" makes create raise the ValueError
    naming the email; a collision on the username column whose text
    contains "username" and not "email" makes it raise the ValueError naming
    the username; an IntegrityError whose text contains neither word, and
    any exception of another class (a lost connection), leaves create
    unchanged.  sign_up answers a ValueError of the use case with status 400
    and the message as detail, every other exception with the generic status
    500, and raises nothing else. *)
Theorem registration_failure_translation (user : User VO) (s : Session)
    (auc : AuthUseCases) (d : UserCreateDTO) :
  (forall c,
      broken s = None -> pending s = [] ->
      violated (table s) (_entity_to_model user) = Some c ->
      let msg := integrity_text c (_entity_to_model user) in
      (c = col_email -> str_in "email" msg = true ->
       fst (create user s)
       = Raise (ValueError ("User with email " ++ Email_str (email user)
                            ++ " already exists")))
      /\ (c = col_username ->
          str_in "email" msg = false -> str_in "username" msg = true ->
          fst (create user s)
          = Raise (ValueError ("User with username " ++ username user
                               ++ " already exists")))
      /\ (str_in "email" msg = false -> str_in "username" msg = false ->
          fst (create user s) = Raise (IntegrityError msg)))
  /\ (forall msg, broken s = Some msg ->
                  fst (create user s) = Raise (OperationalError msg))
  /\ (forall e, fst (register_user auc d s) = Raise e ->
                fst (sign_up d auc s)
                = Raise match e with
                        | ValueError msg =>
                            HTTPException HTTP_400_BAD_REQUEST msg []
                        | _ => registration_500
                        end)
  /\ (forall e, fst (sign_up d auc s) = Raise e ->
                (exists msg, e = HTTPException HTTP_400_BAD_REQUEST msg [])
                \/ e = registration_500).
Proof.
  split; [|split; [|split]].
  - intros c Hb Hp Hv. cbn zeta.
    rewrite (create_on_violation user s c Hb Hp Hv). unfold create_handler.
    split; [|split].
    + intros _ ->. reflexivity.
    + intros _ -> ->. reflexivity.
    + intros -> ->. reflexivity.
  - intros msg. apply create_on_lost_connection.
  - intros e. apply sign_up_raises.
  - intros e He.
    destruct (sign_up_only_http auc d s e He) as [(m & -> & _) | ->].
    + left. now exists m.
    + now right.
Qed.

End Failures.

Section LoginFailures.

Context {VO : ValueObjects} {JWT : JwtService VO} {PWD : PasswordService}
        {DRV : SqlDriver} {FR : Fresh VO}.

(** What login raises is decided by what the use case raised. *)
Lemma login_raises (auc : AuthUseCases) (d : UserLoginDTO) (s : Session)
    (e : exn) :
  fst (login_user auc d s) = Raise e ->
  fst (login d auc s)
  = Raise match e with
          | ValueError msg => HTTPException HTTP_401_UNAUTHORIZED msg []
          | _ => HTTPException HTTP_500_INTERNAL_SERVER_ERROR
                               "Internal server error during login" []
          end.
Proof.
  unfold login, try_except, bind.
  destruct (login_user auc d s) as [[r|e'] s1]; cbn [fst]; [discriminate|].
  intros [= ->]. destruct e; reflexivity.
Qed.

Lemma login_user_spec_fails (d : UserLoginDTO) (s : Session) :
  login_fails d s ->
  fst (login_user_spec d s) = Raise InvalidCredentials.
Proof.
  unfold login_fails, login_user_spec, bind.
  destruct (find_by_identifier (l_identifier d) s) as [[[u|]|e] s1];
    cbn [fst]; intros [H | (u' & H & Hu)]; try discriminate;
    try reflexivity.
  injection H as <-.
  destruct Hu as [-> | Hv]; [reflexivity|].
  rewrite Hv. destruct (is_active u); reflexivity.
Qed.

(** C4: against the login use case as the specification describes it, a
    login that fails because nobody has the identifier, because the user is
    inactive, or because the password does not verify is answered with one
    and the same HTTPException: status 401 and the generic detail of
    InvalidCredentials. *)
Theorem login_failures_identical (d : UserLoginDTO) (s : Session) :
  login_fails d s ->
  fst (login d auth_use_cases_spec s)
  = Raise (HTTPException HTTP_401_UNAUTHORIZED "Invalid credentials" []).
Proof.
  intros H.
  rewrite (login_raises auth_use_cases_spec d s InvalidCredentials);
    [reflexivity|].
  now apply login_user_spec_fails.
Qed.

End LoginFailures.

(* ------------------------------------------------------------------ *)
(** ** The properties at concrete inputs *)

Section Instances.
Import Demo.

(** The round trip on alice. *)
Lemma entity_model_roundtrip_alice :
  _model_to_entity (_entity_to_model alice) = alice.
Proof. exact (entity_model_roundtrip string_objects_laws alice). Defined.

(** bob is stored but inactive: his token is answered with a 401. *)
Lemma get_current_user_outcomes_bob :
  unauthenticated (bearer "uid:u3") session0
  /\ exists detail,
       fst (get_current_user (bearer "uid:u3") session0)
       = Raise (unauthorized detail).
Proof.
  assert (H : unauthenticated (bearer "uid:u3") session0).
  { right; right. exists (mkCredentials "Bearer" "uid:u3"), "u3".
    split; [reflexivity|]. split; [reflexivity|].
    right. exists bob_inactive. split; reflexivity. }
  split; [exact H|].
  exact (proj1 (get_current_user_outcomes (bearer "uid:u3") session0) H).
Defined.

(** C3 fails as stated: alice's token on a lost connection is none of the
    three unauthenticated cases, yet the resolver does not return alice: it
    raises the OperationalError of the lookup, which is neither a 401 nor a
    user. *)
Lemma get_current_user_on_lost_connection_neither :
  ~ unauthenticated (bearer "uid:u1") session_down
  /\ fst (get_current_user (bearer "uid:u1") session_down)
     = Raise (OperationalError "connection lost")
  /\ (forall u, fst (get_current_user (bearer "uid:u1") session_down)
                <> Ret u)
  /\ (forall detail headers,
         fst (get_current_user (bearer "uid:u1") session_down)
         <> Raise (HTTPException HTTP_401_UNAUTHORIZED detail headers)).
Proof.
  split; [|split; [reflexivity | split; intros; discriminate]].
  unfold unauthenticated.
  intros [H | [(c & H & Ht) | (c & uid & H & Ht & [Hg | (u & Hg & _)])]];
    try discriminate H; injection H as <-.
  - discriminate Ht.
  - injection Ht as <-. discriminate Hg.
  - injection Ht as <-. discriminate Hg.
Qed.

(** alice's token resolves to alice, who passes the active-user check. *)
Lemma get_current_active_user_alice :
  fst (get_current_user (bearer "uid:u1") session0) = Ret alice
  /\ is_active alice = true
  /\ get_current_active_user alice = Ret alice.
Proof.
  split; [reflexivity|].
  apply (proj1 (get_current_active_user_is_identity (bearer "uid:u1")
                  session0)).
  reflexivity.
Defined.

(** alice's /me response does not change when her stored hash does. *)
Lemma me_view_ignores_hash_alice :
  fst (me_endpoint (bearer "uid:u1") session0)
  = fst (me_endpoint (bearer "uid:u1") session0_rehashed).
Proof.
  apply (proj2 (proj2 me_view_ignores_hash)); [reflexivity|].
  repeat constructor.
Defined.

(** Updating bob rewrites bob's row and leaves alice's. *)
Lemma update_frame_bob :
  fst (update bob_edited session0) = Ret bob_after
  /\ Forall2 (row_written bob_edited) rows0
             [_entity_to_model alice; _entity_to_model bob_after].
Proof.
  split; [reflexivity|].
  apply (proj1 (proj2 (update_frame bob_edited session0)) bob_after).
  reflexivity.
Defined.

(** A request that creates zed and returns: zed's row is durable. *)
Lemma get_session_commits_zed :
  fst (get_session (create zed) session0) = Ret zed
  /\ durable (snd (get_session (create zed) session0))
     = (rows0 ++ [_entity_to_model zed])%list
  /\ table (snd (get_session (create zed) session0))
     = (rows0 ++ [_entity_to_model zed])%list.
Proof.
  apply (proj1 (get_session_commit_rollback_close (create zed) session0)
           zed
           (mkSession (rows0 ++ [_entity_to_model zed]) rows0 [] None false)
           (rows0 ++ [_entity_to_model zed])%list);
    reflexivity.
Defined.

(** A write that collides with alice's email names the email. *)
Lemma registration_failure_translation_email :
  violated (table session0) (_entity_to_model yan) = Some col_email
  /\ fst (create yan session0)
     = Raise (ValueError "User with email a@x.com already exists").
Proof.
  split; [reflexivity|].
  apply (proj1 (proj1 (registration_failure_translation yan session0
                         auth_use_cases_spec
                         (mkUserCreateDTO "a@x.com" "yan" "pw"))
                      col_email eq_refl eq_refl eq_refl));
    reflexivity.
Defined.

(** A wrong password for alice: the generic 401. *)
Lemma login_failures_identical_wrong_password :
  login_fails (mkUserLoginDTO "alice" "wrongpw") session0
  /\ fst (login (mkUserLoginDTO "alice" "wrongpw") auth_use_cases_spec session0)
     = Raise (HTTPException 401 "Invalid credentials" []).
Proof.
  assert (H : login_fails (mkUserLoginDTO "alice" "wrongpw") session0).
  { right. exists alice. split; [reflexivity|]. right. reflexivity. }
  split; [exact H|].
  exact (login_failures_identical (mkUserLoginDTO "alice" "wrongpw")
           session0 H).
Defined.

(** The three failed logins of section 8 give the same response. *)
Example run_login_failures :
  fst (login (mkUserLoginDTO "alice" "wrongpw") auth_use_cases_spec session0)
  = fst (login (mkUserLoginDTO "nobody" "secret1") auth_use_cases_spec session0)
  /\ fst (login (mkUserLoginDTO "nobody" "secret1") auth_use_cases_spec session0)
     = fst (login (mkUserLoginDTO "bob" "secret2") auth_use_cases_spec session0).
Proof. split; reflexivity. Qed.

(** C2 fails as stated: on a lost connection the write raises an
    OperationalError that create passes on as it is; the registration
    endpoint answers an OperationalError of its use case, whichever use case
    it is given, with the generic status 500, and so it does for the use
    case of the specification; that response is not a duplicate-user
    error. *)
Lemma registration_on_lost_connection_is_generic :
  fst (create zed session_down) = Raise (OperationalError "connection lost")
  /\ (forall auc d s,
         fst (register_user auc d s)
         = Raise (OperationalError "connection lost") ->
         fst (sign_up d auc s) = Raise registration_500)
  /\ fst (sign_up (mkUserCreateDTO "z@x.com" "zed" "pw") auth_use_cases_spec
                  session_down)
     = Raise (HTTPException 500 "Internal server error during registration" [])
  /\ ~ duplicate_user_response
         (HTTPException 500 "Internal server error during registration" []).
Proof.
  split; [reflexivity|]. split; [|split; [reflexivity|]].
  - intros auc d s H. now rewrite (sign_up_raises auc d s _ H).
  - intros (field & value & H). discriminate H.
Qed.

(** A write that collides on the primary key while email and username are
    free: the error text quotes the INSERT statement, create names the
    email, and the endpoint answers with status 400. *)
Example run_sign_up_id_collision :
  fst (sign_up (mkUserCreateDTO "c@x.com" "carol" "pw") auth_use_cases_spec
               (mkSession [mkUserModel "u2" "d@x.com" "dan" "h" true 1%Z 1%Z]
                          [] [] None false))
  = Raise (HTTPException 400 "User with email c@x.com already exists" []).
Proof. reflexivity. Qed.

(** With the message of the database alone as error text, the same write
    raises an IntegrityError that names neither column; create re-raises it
    and the endpoint answers with the generic status 500. *)
Example run_sign_up_id_collision_message_only :
  fst (sign_up (mkUserCreateDTO "c@x.com" "carol" "pw")
               (@auth_use_cases_spec string_objects message_only jwt pwd fresh)
               (mkSession [mkUserModel "u2" "d@x.com" "dan" "h" true 1%Z 1%Z]
                          [] [] None false))
  = Raise (HTTPException 500 "Internal server error during registration" []).
Proof. reflexivity. Qed.

End Instances.

(* ------------------------------------------------------------------ *)
(** ** Further properties of create *)

Section CreateMore.

Context {VO : ValueObjects} {DRV : SqlDriver}.

(** A flush that goes through has appended the pending objects, in order. *)
Lemma insert_all_appends (ms t t' : list UserModel) :
  insert_all ms t = Ret t' -> t' = (t ++ ms)%list.
Proof.
  revert t. induction ms as [|m ms IH]; intros t; cbn.
  - intros [= <-]. now rewrite app_nil_r.
  - destruct (violated t m); [discriminate|].
    intros H. rewrite (IH _ H), <- app_assoc. reflexivity.
Qed.

(** [create], outcome by outcome of the flush. *)
Lemma create_run (user : User VO) (s : Session) :
  create user s =
  let model := _entity_to_model user in
  match broken s with
  | Some msg =>
      (Raise (OperationalError msg), set_pending (pending s ++ [model]) s)
  | None =>
      match insert_all (pending s ++ [model]) (table s) with
      | Raise e => (Raise (create_handler user e), set_pending [] s)
      | Ret t' =>
          (match filter (fun r => String.eqb (m_id r) (m_id model)) t' with
           | r :: _ => Ret (_model_to_entity r)
           | [] => Raise (InvalidRequestError "Could not refresh instance")
           end,
           mkSession t' (durable s) [] None (closed s))
      end
  end.
Proof.
  cbn zeta. unfold create, bind, try_except, session_add.
  rewrite session_flush_run.
  destruct s as [t d p [msg|] c];
    cbn [broken pending table set_pending set_table durable closed];
    [reflexivity|].
  destruct (insert_all _ t) as [t'|e];
    cbn [broken pending table set_pending set_table durable closed].
  - rewrite session_refresh_run.
    cbn [broken pending table set_pending set_table durable closed].
    destruct (filter _ t'); reflexivity.
  - unfold create_handler. destruct e; try reflexivity.
    destruct (str_in "email" msg); [reflexivity|].
    destruct (str_in "username" msg); reflexivity.
Qed.

Lemma filter_app_last (p : UserModel -> bool) (t : list UserModel)
    (m : UserModel) :
  p m = true -> filter p (t ++ [m]) <> [].
Proof.
  intros Hp H. rewrite filter_app in H. cbn in H. rewrite Hp in H.
  now destruct (filter p t).
Qed.

(** X1: a row written by create is found again: on a healthy session with
    nothing pending, creating a user whose id, email and username are free
    returns the entity of the new row, and then get_by_id, get_by_email and
    get_by_username return that entity and both existence tests return
    True. *)
Theorem create_then_find (user : User VO) (s : Session) :
  broken s = None ->
  pending s = [] ->
  violated (table s) (_entity_to_model user) = None ->
  let u := _model_to_entity (_entity_to_model user) in
  let s' := snd (create user s) in
  fst (create user s) = Ret u
  /\ fst (get_by_id (id user) s') = Ret (Some u)
  /\ fst (get_by_email (email user) s') = Ret (Some u)
  /\ fst (get_by_username (username user) s') = Ret (Some u)
  /\ fst (exists_by_email (email user) s') = Ret true
  /\ fst (exists_by_username (username user) s') = Ret true.
Proof.
  intros Hb Hp Hv. cbn zeta. rewrite (create_succeeds user s Hb Hp Hv).
  cbn [fst snd].
  unfold violated in Hv.
  destruct (existsb _ (table s)) eqn:Hid; [discriminate|].
  destruct (existsb _ (table s)) eqn:Hem in Hv; [discriminate|].
  destruct (existsb _ (table s)) eqn:Hun in Hv; [discriminate|].
  change (get_by_id (id user)) with (find_one (key_id (id user))).
  change (get_by_email (email user)) with (find_one (key_email (email user))).
  change (get_by_username (username user))
    with (find_one (key_username (username user))).
  change (exists_by_email (email user))
    with (exists_one (key_email (email user))).
  change (exists_by_username (username user))
    with (exists_one (key_username (username user))).
  rewrite !find_one_run, !exists_one_run. cbn [fst broken table].
  rewrite !filter_app.
  rewrite (filter_none (key_id (id user)) _ Hid).
  rewrite (filter_none (key_email (email user)) _ Hem).
  rewrite (filter_none (key_username (username user)) _ Hun).
  cbn [filter app]. unfold key_id, key_email, key_username.
  cbn [_entity_to_model m_id m_email m_username].
  rewrite !String.eqb_refl. repeat split.
Qed.

End CreateMore.

(* ------------------------------------------------------------------ *)
(** ** Properties of delete *)

Section Delete.

Context {VO : ValueObjects} {DRV : SqlDriver}.

Lemma filter_length_pos {A : Type} (p : A -> bool) (l : list A) :
  Nat.ltb 0 (length (filter p l)) = existsb p l.
Proof.
  induction l as [|a l IH]; cbn; [reflexivity|].
  destruct (p a); cbn; [reflexivity | exact IH].
Qed.

Lemma filter_filter_negb {A : Type} (p : A -> bool) (l : list A) :
  filter p (filter (fun a => negb (p a)) l) = [].
Proof.
  induction l as [|a l IH]; cbn; [reflexivity|].
  destruct (p a) eqn:E; cbn; [exact IH | now rewrite E].
Qed.

(** [delete], outcome by outcome. *)
Lemma delete_run (uid : UserId) (s : Session) :
  delete uid s =
  match broken s with
  | Some msg => (Raise (OperationalError msg), s)
  | None =>
      (Ret (existsb (key_id uid) (table s)),
       set_table (filter (fun r => negb (key_id uid r)) (table s)) s)
  end.
Proof.
  unfold delete, bind, execute_delete, statement, ret.
  destruct (broken s); [reflexivity|].
  cbv beta iota. now rewrite filter_length_pos.
Qed.

(** X4: on a healthy session delete returns True exactly when a row with
    the id was stored; it removes the rows with that id and keeps the others
    in their order; afterwards the id is not found and a second delete
    returns False.  Nothing durable or pending changes. *)
Theorem delete_removes_exactly (uid : UserId) (s : Session) :
  broken s = None ->
  let s' := snd (delete uid s) in
  (fst (delete uid s) = Ret true <->
   exists r, In r (table s) /\ m_id r = UserId_str uid)
  /\ (exists b, fst (delete uid s) = Ret b)
  /\ table s' = filter (fun r => negb (key_id uid r)) (table s)
  /\ fst (get_by_id uid s') = Ret None
  /\ fst (delete uid s') = Ret false
  /\ durable s' = durable s
  /\ pending s' = pending s.
Proof.
  intros Hb. cbn zeta. rewrite (delete_run uid s), Hb. cbn [fst snd].
  split; [|split; [|split; [|split; [|split; [|split]]]]].
  - split.
    + intros [= H]. apply existsb_exists in H. destruct H as (r & Hin & Hk).
      exists r. split; [exact Hin | now apply String.eqb_eq].
    + intros (r & Hin & Hk). f_equal. apply existsb_exists.
      exists r. split; [exact Hin | now apply String.eqb_eq].
  - eexists. reflexivity.
  - reflexivity.
  - change (get_by_id uid) with (find_one (key_id uid)).
    rewrite find_one_run. cbn [fst broken table set_table]. rewrite Hb.
    now rewrite filter_filter_negb.
  - rewrite delete_run. cbn [broken table set_table fst]. rewrite Hb.
    cbn [fst]. f_equal.
    destruct (existsb _ _) eqn:E; [|reflexivity].
    apply existsb_exists in E. destruct E as (r & Hin & Hk).
    apply filter_In in Hin. destruct Hin as [_ Hn]. now rewrite Hk in Hn.
  - reflexivity.
  - reflexivity.
Qed.

(** A delete that cannot reach the database raises the OperationalError
    and leaves the session as it was. *)
Lemma delete_on_lost_connection (uid : UserId) (s : Session) (msg : string) :
  broken s = Some msg ->
  delete uid s = (Raise (OperationalError msg), s).
Proof. intros Hb. now rewrite delete_run, Hb. Qed.

End Delete.

(* ------------------------------------------------------------------ *)
(** ** Further properties of update *)

Section UpdateMore.

Context {VO : ValueObjects} {DRV : SqlDriver}.

(** [update], outcome by outcome of the statement. *)
Lemma update_run (u : User VO) (s : Session) :
  update u s =
  let key := UserId_str (id u) in
  let v := _entity_to_model u in
  match broken s with
  | Some msg => (Raise (OperationalError msg), s)
  | None =>
      match update_collision key v (table s) with
      | Some c => (Raise (IntegrityError (integrity_text c v)), s)
      | None =>
          let t' := map (apply_values key v) (table s) in
          (match filter (fun r => String.eqb (m_id r) key) t' with
           | [] => Raise NoResultFound
           | [m] => Ret (_model_to_entity m)
           | _ :: _ :: _ => Raise MultipleResultsFound
           end, set_table t' s)
      end
  end.
Proof.
  cbn zeta. unfold update, bind, execute_update, statement, lift.
  destruct (broken s) as [msg|]; [reflexivity|].
  destruct (update_collision _ _ _) as [c|].
  { cbn. now rewrite set_table_same. }
  cbn. destruct (filter _ _) as [|m [|m' l]]; reflexivity.
Qed.

Lemma apply_values_id (key : string) (v r : UserModel) :
  m_id (apply_values key v r) = m_id r.
Proof. unfold apply_values. now destruct (String.eqb (m_id r) key). Qed.

Lemma apply_values_idem (key : string) (v r : UserModel) :
  apply_values key v (apply_values key v r) = apply_values key v r.
Proof.
  unfold apply_values at 2.
  destruct (String.eqb (m_id r) key) eqn:E.
  - unfold apply_values. cbn. now rewrite E.
  - unfold apply_values. now rewrite E.
Qed.

Lemma apply_values_other (key : string) (v r : UserModel) :
  String.eqb (m_id r) key = false -> apply_values key v r = r.
Proof. intros E. unfold apply_values. now rewrite E. Qed.

Lemma map_apply_values_none (key : string) (v : UserModel)
    (t : list UserModel) :
  existsb (fun r => String.eqb (m_id r) key) t = false ->
  map (apply_values key v) t = t.
Proof.
  induction t as [|r t IH]; cbn; [reflexivity|].
  destruct (String.eqb (m_id r) key) eqn:E; cbn; [discriminate|].
  intros H. now rewrite IH, apply_values_other.
Qed.

Lemma filter_map_apply_values (key : string) (v : UserModel)
    (t : list UserModel) :
  filter (fun r => String.eqb (m_id r) key) (map (apply_values key v) t)
  = map (apply_values key v) (filter (fun r => String.eqb (m_id r) key) t).
Proof.
  induction t as [|r t IH]; cbn; [reflexivity|].
  rewrite apply_values_id.
  destruct (String.eqb (m_id r) key); cbn; now rewrite IH.
Qed.

Lemma existsb_map_apply_values (key : string) (v : UserModel)
    (q : UserModel -> bool) (t : list UserModel) :
  (forall r, q (apply_values key v r) = q r) ->
  existsb q (map (apply_values key v) t) = existsb q t.
Proof.
  intros Hq. induction t as [|r t IH]; cbn; [reflexivity|].
  now rewrite Hq, IH.
Qed.

(** The check the statement makes comes out the same on the rewritten
    table. *)
Lemma update_collision_map (key : string) (v : UserModel)
    (t : list UserModel) :
  update_collision key v (map (apply_values key v) t)
  = update_collision key v t.
Proof.
  unfold update_collision. rewrite !existsb_map_apply_values; [reflexivity|..];
    intros r; rewrite ?apply_values_id; try reflexivity;
    destruct (String.eqb (m_id r) key) eqn:E; cbn; try reflexivity;
    now rewrite (apply_values_other _ _ _ E).
Qed.

(** X7: updating a user whose id is not stored raises NoResultFound and
    leaves the session exactly as it was. *)
Theorem update_missing_user (u : User VO) (s : Session) :
  fst (get_by_id (id u) s) = Ret None ->
  update u s = (Raise NoResultFound, s).
Proof.
  intros Hg.
  destruct (find_one_finds_by (key_id (id u)) s) as (_ & Hnone & _).
  apply Hnone in Hg. destruct Hg as [Hb Hf].
  assert (He : existsb (fun r => String.eqb (m_id r) (UserId_str (id u)))
                       (table s) = false).
  { destruct (existsb _ _) eqn:E; [|reflexivity].
    apply existsb_exists in E. destruct E as (r & Hin & Hk).
    assert (Hr : In r (filter (key_id (id u)) (table s)))
      by (apply filter_In; split; assumption).
    rewrite Hf in Hr. contradiction. }
  rewrite update_run. cbn zeta. rewrite Hb.
  unfold update_collision. rewrite He. cbn [negb].
  rewrite (map_apply_values_none _ _ _ He), (filter_none _ _ He).
  now rewrite set_table_same.
Qed.

(** X8: the entity a successful update returns carries the username, hash,
    active flag and updated_at it was given, the email rebuilt from the
    given email's string, and the id and created_at of the stored row, not
    of the argument; a lookup by id right after the update returns
    the same entity. *)
Theorem update_then_find (u v : User VO) (s : Session) :
  fst (update u s) = Ret v ->
  fst (get_by_id (id u) (snd (update u s))) = Ret (Some v)
  /\ username v = username u
  /\ hashed_password v = hashed_password u
  /\ is_active v = is_active u
  /\ updated_at v = updated_at u
  /\ email v = Email_new (Email_str (email u))
  /\ exists r, In r (table s)
               /\ m_id r = UserId_str (id u)
               /\ id v = UserId_new (m_id r)
               /\ created_at v = m_created_at r.
Proof.
  rewrite update_run. cbn zeta.
  destruct (broken s) as [msg|] eqn:Hb; [discriminate|].
  destruct (update_collision _ _ _) as [c|]; [discriminate|].
  cbn [fst snd].
  destruct (filter _ (map _ _)) as [|m [|m' l]] eqn:Hf; try discriminate.
  intros [= <-]. split.
  - change (get_by_id (id u)) with (find_one (key_id (id u))).
    rewrite find_one_run. cbn [fst broken table set_table]. rewrite Hb.
    unfold key_id. now rewrite Hf.
  - rewrite filter_map_apply_values in Hf.
    destruct (filter _ (table s)) as [|r [|r' l]] eqn:Hr; try discriminate.
    injection Hf as <-.
    destruct (selected_row_stored _ _ _ Hr) as [Hin Hk].
    unfold apply_values. rewrite Hk. cbn.
    repeat split. exists r. apply String.eqb_eq in Hk. repeat split; assumption.
Qed.

(** X9: update is idempotent: repeating a successful update returns the
    same entity and leaves the session the first update produced. *)
Theorem update_twice (u v : User VO) (s : Session) :
  fst (update u s) = Ret v ->
  update u (snd (update u s)) = (Ret v, snd (update u s)).
Proof.
  rewrite (update_run u s). cbn zeta.
  destruct (broken s) as [msg|] eqn:Hb; [discriminate|].
  destruct (update_collision _ _ (table s)) as [c|] eqn:Hc; [discriminate|].
  cbn [fst snd]. intros Hv.
  rewrite update_run. cbn zeta. cbn [broken table set_table]. rewrite Hb.
  rewrite update_collision_map, Hc.
  rewrite (map_map (apply_values _ _) (apply_values _ _)).
  rewrite (map_ext _ _ (apply_values_idem _ _)).
  rewrite Hv. reflexivity.
Qed.

End UpdateMore.

(* ------------------------------------------------------------------ *)
(** ** The repository on a table with unique keys *)

Section UniqueRows.

Context {VO : ValueObjects} {DRV : SqlDriver}.

(** With a unique key column, a selection by key has at most one row. *)
Lemma filter_unique_key (f : UserModel -> string) (k : string)
    (t : list UserModel) :
  NoDup (map f t) ->
  filter (fun r => String.eqb (f r) k) t = []
  \/ exists r, filter (fun r => String.eqb (f r) k) t = [r].
Proof.
  induction t as [|r t IH]; cbn; [now left|].
  intros Hnd. inversion Hnd as [|x l Hnotin Hnd']; subst.
  destruct (String.eqb_spec (f r) k) as [E|N].
  - right. exists r. f_equal.
    apply filter_none. destruct (existsb _ t) eqn:Ex; [|reflexivity].
    apply existsb_exists in Ex. destruct Ex as (r' & Hin & Hk).
    apply String.eqb_eq in Hk. exfalso. apply Hnotin.
    rewrite E, <- Hk. now apply in_map.
  - now apply IH.
Qed.

(** X11: on a healthy session whose table has unique ids, emails and
    usernames, the three finders never raise: each returns the entity of
    the stored row with the key, or None when no row has it. *)
Theorem finders_total_on_unique_rows (s : Session) (i : UserId) (e : Email)
    (n : string) :
  broken s = None ->
  unique_rows (table s) ->
  (exists o, fst (get_by_id i s) = Ret o
             /\ forall r, In r (table s) -> m_id r = UserId_str i ->
                          o = Some (_model_to_entity r))
  /\ (exists o, fst (get_by_email e s) = Ret o
                /\ forall r, In r (table s) -> m_email r = Email_str e ->
                             o = Some (_model_to_entity r))
  /\ (exists o, fst (get_by_username n s) = Ret o
                /\ forall r, In r (table s) -> m_username r = n ->
                             o = Some (_model_to_entity r)).
Proof.
  intros Hb (Hid & Hem & Hun).
  change (get_by_id i) with (find_one (key_id i)).
  change (get_by_email e) with (find_one (key_email e)).
  change (get_by_username n) with (find_one (key_username n)).
  rewrite !find_one_run, Hb. cbn [fst].
  assert (H : forall (f : UserModel -> string) (k : string),
             NoDup (map f (table s)) ->
             exists o,
               match filter (fun r => String.eqb (f r) k) (table s) with
               | [] => Ret None
               | [r] => Ret (Some (_model_to_entity r))
               | _ :: _ :: _ => Raise MultipleResultsFound
               end = Ret o
               /\ forall r, In r (table s) -> f r = k ->
                            o = Some (_model_to_entity r)).
  { intros f k Hnd.
    destruct (filter_unique_key f k (table s) Hnd) as [Hf | [r Hf]];
      rewrite Hf; eexists; (split; [reflexivity|]); intros r' Hin Hk.
    - assert (Hr : In r' (filter (fun r => String.eqb (f r) k) (table s)))
        by (apply filter_In; split; [exact Hin | now apply String.eqb_eq]).
      rewrite Hf in Hr. contradiction.
    - assert (Hr : In r' (filter (fun r => String.eqb (f r) k) (table s)))
        by (apply filter_In; split; [exact Hin | now apply String.eqb_eq]).
      rewrite Hf in Hr. destruct Hr as [<- | []]. reflexivity. }
  split; [|split].
  - exact (H m_id (UserId_str i) Hid).
  - exact (H m_email (Email_str e) Hem).
  - exact (H m_username n Hun).
Qed.

End UniqueRows.

(* ------------------------------------------------------------------ *)
(** ** How the repository calls compose *)

Section Composition.

Context {VO : ValueObjects} {DRV : SqlDriver}.

Lemma filter_negb_all {A : Type} (p : A -> bool) (l : list A) :
  existsb p l = false -> filter (fun a => negb (p a)) l = l.
Proof.
  induction l as [|a l IH]; cbn; [reflexivity|].
  destruct (p a); cbn; [discriminate | intros H; now rewrite IH].
Qed.

(** X13: deleting a user right after creating it undoes the create: on a
    healthy session with nothing pending and the user's id, email and
    username free, delete returns True and the table is the one before
    the create. *)
Theorem create_then_delete (user : User VO) (s : Session) :
  broken s = None ->
  pending s = [] ->
  violated (table s) (_entity_to_model user) = None ->
  fst (delete (id user) (snd (create user s))) = Ret true
  /\ table (snd (delete (id user) (snd (create user s)))) = table s.
Proof.
  intros Hb Hp Hv. rewrite (create_succeeds user s Hb Hp Hv). cbn [snd].
  rewrite delete_run. cbn [broken table fst snd set_table].
  assert (Hid : existsb (key_id (id user)) (table s) = false).
  { unfold violated in Hv.
    destruct (existsb (fun r => String.eqb (m_id r)
                                  (m_id (_entity_to_model user))) (table s))
      eqn:E; [discriminate | exact E]. }
  assert (Hk : key_id (id user) (_entity_to_model user) = true)
    by apply String.eqb_refl.
  split.
  - f_equal. rewrite existsb_app. cbn [existsb]. rewrite Hk.
    now rewrite orb_true_r.
  - rewrite filter_app. cbn [filter]. rewrite Hk. cbn [negb].
    rewrite app_nil_r. now apply filter_negb_all.
Qed.

(** X14: a request that consists of one create is all or nothing: when the
    create raises, get_session raises the same exception and the durable
    table is the one the request started with; when it returns, the durable
    table is the old table followed by what was pending and the new row. *)
Theorem get_session_create_atomic (user : User VO) (s : Session) :
  (forall e, fst (create user s) = Raise e ->
             fst (get_session (create user) s) = Raise e
             /\ durable (snd (get_session (create user) s)) = durable s)
  /\ (forall u, fst (create user s) = Ret u ->
                fst (get_session (create user) s) = Ret u
                /\ durable (snd (get_session (create user) s))
                   = (table s ++ pending s ++ [_entity_to_model user])%list).
Proof.
  rewrite get_session_run, create_run. cbn zeta.
  destruct (broken s) as [msg|].
  { split; [|discriminate]. intros e [= <-]. split; reflexivity. }
  destruct (insert_all _ (table s)) as [t'|e0] eqn:Hi.
  - pose proof (insert_all_appends _ _ _ Hi) as Ht.
    destruct (filter _ t') as [|r l] eqn:Hf.
    { exfalso. revert Hf. rewrite Ht, app_assoc. apply filter_app_last.
      apply String.eqb_refl. }
    rewrite session_commit_run. cbn [broken pending table insert_all].
    split; [discriminate|]. intros u [= <-]. split; [reflexivity|].
    cbn. rewrite Ht. now rewrite app_assoc.
  - split; [|discriminate]. intros e [= <-]. split; reflexivity.
Qed.

End Composition.

(* ------------------------------------------------------------------ *)
(** ** How the two resolvers relate *)

Section ResolversMore.

Context {VO : ValueObjects} {JWT : JwtService VO}.

Lemma get_current_user_optional_session
    (creds : option HTTPAuthorizationCredentials) (s : Session) :
  snd (get_current_user_optional creds s) = s.
Proof.
  destruct creds as [c|]; [|reflexivity].
  unfold get_current_user_optional, try_except, bind, lift.
  destruct (get_user_id_from_token (credentials c)) as [[uid|]|e];
    try reflexivity.
  pose proof (get_by_id_session uid s) as Hs.
  destruct (get_by_id uid s) as [[[u|]|e] s']; cbn in *; subst s';
    try reflexivity.
  destruct (is_active u); reflexivity.
Qed.

(** X15: the two resolvers agree on who is authenticated: the required
    resolver returns a user exactly when the optional one returns that
    user, and whenever the required resolver raises, the optional one
    returns None. *)
Theorem resolvers_agree
    (creds : option HTTPAuthorizationCredentials) (s : Session) :
  (forall u, fst (get_current_user creds s) = Ret u <->
             fst (get_current_user_optional creds s) = Ret (Some u))
  /\ (forall e, fst (get_current_user creds s) = Raise e ->
                fst (get_current_user_optional creds s) = Ret None).
Proof.
  rewrite get_current_user_run, get_current_user_optional_run. cbn [fst].
  destruct creds as [c|].
  2:{ split; [intros u; split; discriminate | reflexivity]. }
  destruct (get_user_id_from_token (credentials c)) as [[uid|]|e0].
  2,3: split; [intros u; split; discriminate | reflexivity].
  destruct (fst (get_by_id uid s)) as [[u0|]|e0].
  2,3: split; [intros u; split; discriminate | reflexivity].
  destruct (is_active u0).
  - split; [|discriminate]. intros u. split; intros [= <-]; reflexivity.
  - split; [intros u; split; discriminate | reflexivity].
Qed.

(** X16: neither resolver nor the /me endpoint writes: the session they
    leave is the session they were given. *)
Theorem resolvers_read_only
    (creds : option HTTPAuthorizationCredentials) (s : Session) :
  snd (get_current_user creds s) = s
  /\ snd (get_current_user_optional creds s) = s
  /\ snd (depends_get_current_active_user creds s) = s
  /\ snd (me_endpoint creds s) = s.
Proof.
  assert (H : snd (get_current_user creds s) = s)
    by now rewrite get_current_user_run.
  split; [exact H|]. split; [apply get_current_user_optional_session|].
  split; [now rewrite depends_get_current_active_user_run|].
  unfold me_endpoint, bind. rewrite depends_get_current_active_user_run.
  destruct (get_current_user creds s) as [[u|e] s']; exact H.
Qed.

(** X17: the required resolver does not turn a failure of its collaborators
    into a 401: what the token decoder raises, and the OperationalError of a
    lookup on a lost connection, leave it unchanged, and so they leave the
    chained dependency and the /me endpoint. *)
Theorem get_current_user_propagates
    (c : HTTPAuthorizationCredentials) (s : Session) :
  (forall e, get_user_id_from_token (credentials c) = Raise e ->
             fst (get_current_user (Some c) s) = Raise e
             /\ fst (me_endpoint (Some c) s) = Raise e)
  /\ (forall uid msg,
         get_user_id_from_token (credentials c) = Ret (Some uid) ->
         broken s = Some msg ->
         fst (get_current_user (Some c) s) = Raise (OperationalError msg)
         /\ fst (me_endpoint (Some c) s) = Raise (OperationalError msg)).
Proof.
  rewrite me_endpoint_run, get_current_user_run. cbn [fst]. split.
  - intros e ->. split; reflexivity.
  - intros uid msg -> Hb.
    change (get_by_id uid) with (find_one (key_id uid)).
    rewrite find_one_run, Hb. split; reflexivity.
Qed.

End ResolversMore.

(* ------------------------------------------------------------------ *)
(** ** Outcomes of the router's endpoints *)

Section Router.

(** X18: when the use case returns, sign_up returns the message with the
    "user" and "tokens" entries of the use case's result; a result that
    lacks one of the two keys is answered with the generic status 500.
    The endpoint leaves the session as the use case left it. *)
Theorem sign_up_returns (auc : AuthUseCases) (d : UserCreateDTO) (s : Session)
    (r : pydict) :
  fst (register_user auc d s) = Ret r ->
  (forall user tokens,
      getitem r "user" = Ret user -> getitem r "tokens" = Ret tokens ->
      fst (sign_up d auc s)
      = Ret [("message", PStr "User registered successfully");
             ("user", user); ("tokens", tokens)])
  /\ (getitem r "user" = Raise (KeyError "user")
      \/ getitem r "tokens" = Raise (KeyError "tokens") ->
      fst (sign_up d auc s) = Raise registration_500)
  /\ snd (sign_up d auc s) = snd (register_user auc d s).
Proof.
  unfold sign_up, try_except, bind, lift, raise, ret.
  destruct (register_user auc d s) as [[r'|e] s1]; cbn [fst snd];
    [|discriminate].
  intros [= ->]. split; [|split].
  - intros user tokens -> ->. reflexivity.
  - intros [H | H].
    + rewrite H. reflexivity.
    + rewrite H. destruct (getitem r "user") as [u|e] eqn:Eu; [reflexivity|].
      now rewrite (getitem_raises _ _ _ Eu).
  - destruct (getitem r "user") as [u|e] eqn:Eu; cbn.
    + destruct (getitem r "tokens") as [t|e] eqn:Et; cbn; [reflexivity|].
      now destruct e.
    + now destruct e.
Qed.

(** [login], outcome by outcome of the use case. *)
Lemma login_only_http (auc : AuthUseCases) (d : UserLoginDTO) (s : Session)
    (e : exn) :
  fst (login d auc s) = Raise e ->
  (exists msg, e = HTTPException HTTP_401_UNAUTHORIZED msg []
               /\ fst (login_user auc d s) = Raise (ValueError msg))
  \/ e = login_500.
Proof.
  unfold login, try_except, bind, lift, raise, ret.
  destruct (login_user auc d s) as [[r|e'] s1]; cbn [fst].
  - destruct (getitem r "user") as [v|e1] eqn:E1; cbn.
    2:{ rewrite (getitem_raises _ _ _ E1). intros [= <-]; now right. }
    destruct (getitem r "tokens") as [w|e2] eqn:E2; cbn; [discriminate|].
    rewrite (getitem_raises _ _ _ E2). intros [= <-]; now right.
  - destruct e'; cbn; intros [= <-]; try (now right).
    left. now exists msg.
Qed.

(** X19: login answers a ValueError of the use case with status 401 and the
    error's message, and anything else it raises, an HTTPException of the
    use case included, with the generic status 500; when the use case
    returns a result with both keys it returns the message with them.
    Nothing but those two HTTPExceptions leaves it. *)
Theorem login_outcomes (auc : AuthUseCases) (d : UserLoginDTO) (s : Session) :
  (forall r user tokens,
      fst (login_user auc d s) = Ret r ->
      getitem r "user" = Ret user -> getitem r "tokens" = Ret tokens ->
      fst (login d auc s)
      = Ret [("message", PStr "Login successful");
             ("user", user); ("tokens", tokens)])
  /\ (forall msg, fst (login_user auc d s) = Raise (ValueError msg) ->
                  fst (login d auc s)
                  = Raise (HTTPException HTTP_401_UNAUTHORIZED msg []))
  /\ (forall status detail headers,
         fst (login_user auc d s)
         = Raise (HTTPException status detail headers) ->
         fst (login d auc s) = Raise login_500)
  /\ (forall e, fst (login d auc s) = Raise e ->
                (exists msg, e = HTTPException HTTP_401_UNAUTHORIZED msg [])
                \/ e = login_500).
Proof.
  split; [|split; [|split]].
  - unfold login, try_except, bind, lift, ret.
    destruct (login_user auc d s) as [[r'|e] s1]; cbn [fst]; [|discriminate].
    intros r user tokens [= ->] -> ->. reflexivity.
  - intros msg H. now rewrite (login_raises auc d s _ H).
  - intros status detail headers H. now rewrite (login_raises auc d s _ H).
  - intros e He. destruct (login_only_http auc d s e He) as [(m & -> & _) | ->].
    + left. now exists m.
    + now right.
Qed.

(** X20: the refresh endpoint returns what the use case returns, answers
    its ValueError with status 401 and the error's message and anything else
    it raises with the generic status 500; nothing but those two
    HTTPExceptions leaves it. *)
Theorem refresh_token_outcomes (auc : TokenUseCases) (d : TokenRefreshDTO)
    (s : Session) :
  (forall tokens,
      fst (uc_refresh_token auc (r_refresh_token d) s) = Ret tokens ->
      fst (refresh_token d auc s) = Ret tokens)
  /\ (forall msg,
         fst (uc_refresh_token auc (r_refresh_token d) s)
         = Raise (ValueError msg) ->
         fst (refresh_token d auc s)
         = Raise (HTTPException HTTP_401_UNAUTHORIZED msg []))
  /\ (forall e,
         fst (uc_refresh_token auc (r_refresh_token d) s) = Raise e ->
         (forall msg, e <> ValueError msg) ->
         fst (refresh_token d auc s) = Raise refresh_500)
  /\ (forall e, fst (refresh_token d auc s) = Raise e ->
                (exists msg, e = HTTPException HTTP_401_UNAUTHORIZED msg [])
                \/ e = refresh_500)
  /\ snd (refresh_token d auc s)
     = snd (uc_refresh_token auc (r_refresh_token d) s).
Proof.
  unfold refresh_token, try_except, bind, raise, ret.
  destruct (uc_refresh_token auc (r_refresh_token d) s) as [[t|e0] s1];
    cbn [fst snd].
  - repeat split; try discriminate. intros tokens [= ->]. reflexivity.
  - split; [discriminate|]. split; [|split; [|split]].
    + intros msg [= ->]. reflexivity.
    + intros e [= ->] Hne. destruct e; try reflexivity.
      exfalso. now apply (Hne msg).
    + intros e. destruct e0; cbn; intros [= <-]; try (now right).
      left. now exists msg.
    + destruct e0; reflexivity.
Qed.

End Router.

(* ------------------------------------------------------------------ *)
(** ** Requests inside the session dependency *)

Section Requests.

Context {VO : ValueObjects} {DRV : SqlDriver} {JWT : JwtService VO}.

(** X21: resolving the current user inside get_session on a fresh healthy
    session (nothing pending, nothing uncommitted) gives the resolver's own
    outcome and leaves the table and the durable table as they were. *)
Theorem get_session_around_resolver
    (creds : option HTTPAuthorizationCredentials) (s : Session) :
  broken s = None ->
  pending s = [] ->
  table s = durable s ->
  fst (get_session (get_current_user creds) s)
  = fst (get_current_user creds s)
  /\ durable (snd (get_session (get_current_user creds) s)) = durable s
  /\ table (snd (get_session (get_current_user creds) s)) = table s.
Proof.
  intros Hb Hp Ht. rewrite get_session_run, get_current_user_run.
  destruct (match creds with Some _ => _ | None => _ end) as [u|e].
  - rewrite session_commit_run, Hb, Hp. cbn. repeat split. now symmetry.
  - cbn. repeat split. now symmetry.
Qed.

(** X5: a registration that the endpoint answers with an HTTPException
    commits nothing: inside get_session the same HTTPException is raised and
    the durable table is the one the use case left, with the uncommitted
    rows dropped from the table. *)
Theorem get_session_sign_up_rolls_back (auc : AuthUseCases)
    (d : UserCreateDTO) (s : Session) (e : exn) :
  fst (sign_up d auc s) = Raise e ->
  fst (get_session (sign_up d auc) s) = Raise e
  /\ durable (snd (get_session (sign_up d auc) s))
     = durable (snd (register_user auc d s))
  /\ table (snd (get_session (sign_up d auc) s))
     = durable (snd (register_user auc d s)).
Proof.
  intros He. rewrite get_session_run.
  assert (Hs : snd (sign_up d auc s) = snd (register_user auc d s)).
  { unfold sign_up, try_except, bind, lift, raise, ret.
    destruct (register_user auc d s) as [[r|e'] s1]; cbn [snd].
    - destruct (getitem r "user") as [u|e1]; cbn.
      + destruct (getitem r "tokens") as [t|e2]; cbn; [reflexivity|].
        now destruct e2.
      + now destruct e1.
    - now destruct e'. }
  destruct (sign_up d auc s) as [[r|e'] s1]; cbn [fst snd] in *;
    [discriminate|].
  injection He as ->. subst s1. repeat split.
Qed.

End Requests.

(* ------------------------------------------------------------------ *)
(** ** The further properties at concrete inputs *)

Section MoreInstances.
Import Demo.

Lemma unique_rows0 : unique_rows rows0.
Proof.
  unfold unique_rows, rows0. cbn.
  repeat split; repeat constructor; cbn; intuition discriminate.
Qed.

(** zed is created and found again by all three finders. *)
Lemma create_then_find_zed :
  fst (get_by_id "u9" (snd (create zed session0))) = Ret (Some zed)
  /\ fst (get_by_email "z@x.com" (snd (create zed session0))) = Ret (Some zed)
  /\ fst (exists_by_username "zed" (snd (create zed session0))) = Ret true.
Proof.
  destruct (create_then_find zed session0 eq_refl eq_refl eq_refl)
    as (_ & H1 & H2 & _ & _ & H3).
  split; [exact H1 | split; [exact H2 | exact H3]].
Defined.

(** Deleting bob removes his row and keeps alice's. *)
Lemma delete_removes_exactly_bob :
  fst (delete "u3" session0) = Ret true
  /\ table (snd (delete "u3" session0)) = [_entity_to_model alice]
  /\ fst (delete "u3" (snd (delete "u3" session0))) = Ret false.
Proof.
  destruct (delete_removes_exactly (VO := string_objects) "u3" session0
              eq_refl)
    as (_ & _ & H1 & _ & H2 & _).
  split; [reflexivity | split; [exact H1 | exact H2]].
Defined.

(** Nobody with id u7 is stored: the update raises and changes nothing. *)
Lemma update_missing_user_nobody :
  update nobody session0 = (Raise NoResultFound, session0).
Proof. exact (update_missing_user nobody session0 eq_refl). Defined.

(** bob's edit is what a lookup returns afterwards. *)
Lemma update_then_find_bob :
  fst (get_by_id "u3" (snd (update bob_edited session0))) = Ret (Some bob_after)
  /\ created_at bob_after = 20%Z.
Proof.
  destruct (update_then_find bob_edited bob_after session0 eq_refl)
    as (H & _).
  split; [exact H | reflexivity].
Defined.

(** Editing bob twice is editing him once. *)
Lemma update_twice_bob :
  update bob_edited (snd (update bob_edited session0))
  = (Ret bob_after, snd (update bob_edited session0)).
Proof. exact (update_twice bob_edited bob_after session0 eq_refl). Defined.

(** The sample store has unique keys, so alice is found by her email. *)
Lemma finders_total_on_unique_rows_alice :
  exists o, fst (get_by_email "a@x.com" session0) = Ret o
            /\ o = Some alice.
Proof.
  destruct (finders_total_on_unique_rows (VO := string_objects) session0
              "u1" "a@x.com" "alice" eq_refl unique_rows0)
    as (_ & (o & H1 & H2) & _).
  exists o. split; [exact H1|].
  apply (H2 (_entity_to_model alice)); [now left | reflexivity].
Defined.

(** Creating zed and deleting him gives back the sample table. *)
Lemma create_then_delete_zed :
  fst (delete "u9" (snd (create zed session0))) = Ret true
  /\ table (snd (delete "u9" (snd (create zed session0)))) = rows0.
Proof. exact (create_then_delete zed session0 eq_refl eq_refl eq_refl). Defined.

(** A use-case result without "tokens" is answered with status 500. *)
Lemma sign_up_returns_half :
  fst (sign_up (mkUserCreateDTO "c@x.com" "carol" "pw") half_use_cases session0)
  = Raise registration_500.
Proof.
  apply (proj1 (proj2 (sign_up_returns half_use_cases
                         (mkUserCreateDTO "c@x.com" "carol" "pw") session0
                         [("user", PStr "carol")] eq_refl))).
  right. reflexivity.
Defined.

(** alice's token resolved inside get_session. *)
Lemma get_session_around_resolver_alice :
  fst (get_session (get_current_user (bearer "uid:u1")) session0) = Ret alice
  /\ durable (snd (get_session (get_current_user (bearer "uid:u1")) session0))
     = rows0.
Proof.
  destruct (get_session_around_resolver (bearer "uid:u1") session0
              eq_refl eq_refl eq_refl) as (H1 & H2 & _).
  split; [exact H1 | exact H2].
Defined.

(** A registration with alice's email inside get_session. *)
Lemma get_session_sign_up_rolls_back_duplicate :
  fst (get_session (sign_up (mkUserCreateDTO "a@x.com" "carol" "pw")
                            auth_use_cases_spec) session0)
  = Raise (HTTPException 400 "User with email a@x.com already exists" [])
  /\ durable (snd (get_session (sign_up (mkUserCreateDTO "a@x.com" "carol" "pw")
                                        auth_use_cases_spec) session0))
     = rows0.
Proof.
  assert (H : fst (sign_up (mkUserCreateDTO "a@x.com" "carol" "pw")
                           auth_use_cases_spec session0)
              = Raise (HTTPException 400
                         "User with email a@x.com already exists" []))
    by reflexivity.
  destruct (get_session_sign_up_rolls_back auth_use_cases_spec
              (mkUserCreateDTO "a@x.com" "carol" "pw") session0 _ H)
    as (H1 & H2 & _).
  split; [exact H1 | exact H2].
Defined.

Example run_refresh_token :
  fst (refresh_token (mkTokenRefreshDTO "refresh:u1") token_use_cases session0)
  = Ret (PTokens "access:u1" "refresh:u1")
  /\ fst (refresh_token (mkTokenRefreshDTO "garbage") token_use_cases session0)
     = Raise (HTTPException 401 "Invalid refresh token" []).
Proof. split; reflexivity. Qed.

End MoreInstances.
